(** * XML_to_XAML: the shape extractor, the colour normaliser and the validator

    A shallow embedding of [utilities.py]: the ElementTree values the code
    walks, the Python string and integer primitives it calls, and the
    functions [decimal_to_hex], [has_crule], [extract_children_text],
    [extract_rule_details], [extract_visuals], [parse_xml] and
    [validate_conversion], followed by the properties proved about them.

    Conventions.
    - A Python [str] is a [string]; [None]-or-string values are
      [option string]; Python integers are [Z].
    - A Python exception is a value of [exn]; a computation that may raise
      has type [result A].
    - Characters are 8-bit: the Unicode-only behaviour of [int], [strip]
      and [lower] (non-ASCII digits, spaces and letters) is outside the
      model, as is the interpreter's optional limit on the number of digits
      [int] accepts. *)

From Stdlib Require Import ZArith List String Ascii Bool Lia.
From stdpp Require Import base option list strings gmap fin_maps.

Local Open Scope string_scope.
Local Open Scope list_scope.
Local Open Scope Z_scope.

(** ** Exceptions and results *)

Inductive exn : Type :=
| AttributeError   (* attribute access on [None] *)
| TypeError        (* [int(None)] *)
| ValueError.      (* [int] of a string that is not an integer literal *)

Inductive result (A : Type) : Type :=
| Ok (a : A)
| Raise (e : exn).
Arguments Ok {A} a.
Arguments Raise {A} e.

Definition rbind {A B} (m : result A) (k : A -> result B) : result B :=
  match m with
  | Ok a => k a
  | Raise e => Raise e
  end.

Notation "'let*' x ':=' m 'in' k" := (rbind m (fun x => k))
  (at level 10, x pattern, m at level 100, k at level 200).

(** A [for] loop whose body may raise: the state is threaded from one
    iteration to the next and the first exception ends the loop. *)
Fixpoint for_each {S A} (body : S -> A -> result S) (xs : list A) (s : S)
  : result S :=
  match xs with
  | [] => Ok s
  | x :: xs' => let* s' := body s x in for_each body xs' s'
  end.

(** ** Python string primitives *)

Module Py.

(** [str.isspace] on one 8-bit character: TAB..CR, FS..US and SPACE. *)
Definition isspace (c : ascii) : bool :=
  let n := N_of_ascii c in
  ((9 <=? n)%N && (n <=? 13)%N) || ((28 <=? n)%N && (n <=? 32)%N).

Fixpoint lstrip (s : string) : string :=
  match s with
  | String c s' => if isspace c then lstrip s' else s
  | EmptyString => EmptyString
  end.

(** [rstrip] keeps a character when it is not a space or when something
    that survives follows it. *)
Fixpoint rstrip (s : string) : string :=
  match s with
  | String c s' =>
      match rstrip s' with
      | EmptyString => if isspace c then EmptyString else String c EmptyString
      | r => String c r
      end
  | EmptyString => EmptyString
  end.

Definition strip (s : string) : string := rstrip (lstrip s).

(** Truth value of a string, and of a string-or-[None]. *)
Definition truthy (s : string) : bool :=
  match s with EmptyString => false | _ => true end.

Definition otruthy (o : option string) : bool :=
  match o with Some s => truthy s | None => false end.

(** [a or b] where [a] is a string or [None] and [b] a string. *)
Definition or_else (a : option string) (b : string) : string :=
  match a with
  | Some s => if truthy s then s else b
  | None => b
  end.

(** [str.lower] on ASCII letters. *)
Definition lower_ascii (c : ascii) : ascii :=
  let n := N_of_ascii c in
  if ((65 <=? n)%N && (n <=? 90)%N) then ascii_of_N (n + 32) else c.

Fixpoint lower (s : string) : string :=
  match s with
  | String c s' => String (lower_ascii c) (lower s')
  | EmptyString => EmptyString
  end.

(** *** Digits *)

(** The character of a digit value below 16, upper case as [X] prints. *)
Definition digit_char (d : Z) : ascii :=
  if d <? 10 then ascii_of_N (Z.to_N d + 48) else ascii_of_N (Z.to_N d + 55).

(** The value of a character read as a digit; letters of either case
    count from ten. *)
Definition char_value (c : ascii) : option Z :=
  let n := Z.of_N (N_of_ascii c) in
  if (48 <=? n) && (n <=? 57) then Some (n - 48)
  else if (65 <=? n) && (n <=? 70) then Some (n - 55)
  else if (97 <=? n) && (n <=? 102) then Some (n - 87)
  else None.

(** The value of a character as a digit in [base] (at most 16). *)
Definition char_digit (base : Z) (c : ascii) : option Z :=
  match char_value c with
  | Some d => if d <? base then Some d else None
  | None => None
  end.

(** Digits of a non-negative number, least significant first. The fuel
    bounds the number of digits; [digits] supplies enough. *)
Fixpoint digits_le (base : Z) (fuel : nat) (n : Z) : list Z :=
  match fuel with
  | O => []
  | S fuel' =>
      (n mod base) :: (if n / base =? 0 then [] else digits_le base fuel' (n / base))
  end.

Definition digits (base : Z) (n : Z) : list Z :=
  rev (digits_le base (S (Z.to_nat (Z.log2 n))) n).

Definition digit_string (base : Z) (n : Z) : string :=
  string_of_list_ascii (map digit_char (digits base n)).

(** [str(n)], which is also how [format] renders an [int] under [{}]. *)
Definition str (n : Z) : string :=
  if n <? 0 then String "-" (digit_string 10 (- n)) else digit_string 10 n.

Fixpoint zeros (k : nat) : string :=
  match k with
  | O => EmptyString
  | S k' => String "0" (zeros k')
  end.

(** [format(n, "06X")]: upper-case hexadecimal, the sign first, then zeros
    up to a total width of six, then the digits. Wider numbers are printed
    in full. *)
Definition format_06X (n : Z) : string :=
  let sign := if n <? 0 then "-" else EmptyString in
  let ds := digit_string 16 (Z.abs n) in
  sign +:+ zeros (6 - String.length sign - String.length ds) +:+ ds.

(** *** [int(s)] *)

(** The digits of an integer literal: at least one digit, and single
    underscores only between digits. [fresh] holds at the start and right
    after an underscore, where a digit must follow. *)
Fixpoint int_digits (base : Z) (acc : Z) (fresh : bool) (s : string) : option Z :=
  match s with
  | EmptyString => if fresh then None else Some acc
  | String c s' =>
      match char_digit base c with
      | Some d => int_digits base (base * acc + d) false s'
      | None =>
          if Ascii.eqb c "_" && negb fresh then int_digits base acc true s'
          else None
      end
  end.

(** An optional sign, then the digits. *)
Definition int_signed (base : Z) (s : string) : option Z :=
  match s with
  | String c s' =>
      if Ascii.eqb c "+" then int_digits base 0 true s'
      else if Ascii.eqb c "-" then Z.opp <$> int_digits base 0 true s'
      else int_digits base 0 true s
  | EmptyString => None
  end.

(** [int(s)] for a string [s]; [None] stands for [ValueError]. *)
Definition int_of_string (s : string) : option Z := int_signed 10 (strip s).

(** [int(x)] for [x] a string or [None]. *)
Definition int (x : option string) : result Z :=
  match x with
  | None => Raise TypeError
  | Some s =>
      match int_of_string s with
      | Some n => Ok n
      | None => Raise ValueError
      end
  end.

(** [sep.join(parts)] *)
Fixpoint join (sep : string) (parts : list string) : string :=
  match parts with
  | [] => EmptyString
  | [p] => p
  | p :: ps => p +:+ sep +:+ join sep ps
  end.

End Py.

(** ** ElementTree values *)

(** An [xml.etree.ElementTree.Element]: its tag, its attribute dictionary in
    document order, its text ([None] when the element has no character data
    before its first child) and its children. The [tail] is never read. *)
#[warnings="-register-all"]
Inductive Element : Type :=
| Elem (tag : string) (attrib : list (string * string))
       (text : option string) (children : list Element).

Definition tag (e : Element) : string := let 'Elem t _ _ _ := e in t.
Definition attrib (e : Element) : list (string * string) := let 'Elem _ a _ _ := e in a.
Definition text (e : Element) : option string := let 'Elem _ _ x _ := e in x.
Definition children (e : Element) : list Element := let 'Elem _ _ _ c := e in c.

Definition has_tag (t : string) (e : Element) : bool := String.eqb (tag e) t.

(** [elem.iter()]: the element and all its descendants in document order. *)
Fixpoint iter (e : Element) : list Element :=
  match e with
  | Elem _ _ _ cs => e :: flat_map iter cs
  end.

(** [elem.findall("t")] and [elem.find("t")]: the children tagged [t]. *)
Definition findall (t : string) (e : Element) : list Element :=
  List.filter (has_tag t) (children e).

Definition find (t : string) (e : Element) : option Element :=
  head (findall t e).

(** [elem.findall(".//t")] and [elem.find(".//t")]: the descendants tagged
    [t], the element itself excluded, in document order. *)
Definition findall_desc (t : string) (e : Element) : list Element :=
  List.filter (has_tag t) (flat_map iter (children e)).

Definition find_desc (t : string) (e : Element) : option Element :=
  head (findall_desc t e).

(** [elem.findall("a/b")] and [elem.find("a/b")] (also written ["./a/b"]):
    the children tagged [b] of the children tagged [a]. *)
Definition findall_path (a b : string) (e : Element) : list Element :=
  flat_map (findall b) (findall a e).

Definition find_path (a b : string) (e : Element) : option Element :=
  head (findall_path a b e).

(** [elem.findtext("t")]: the text of the first child tagged [t], the empty
    string when that child has no text, [None] when there is no such child. *)
Definition findtext (t : string) (e : Element) : option string :=
  match find t e with
  | Some c => Some (default EmptyString (text c))
  | None => None
  end.

(** ** [decimal_to_hex] *)

Definition decimal_to_hex (color_val : option string) : result string :=
  if negb (Py.otruthy color_val) then Ok "#808080"
  else
    match Py.int color_val with
    | Ok n => Ok ("#" +:+ Py.format_06X n)
    | Raise ValueError => Ok "#808080"
    | Raise e => Raise e
    end.

(** ** [has_crule], [extract_children_text], [extract_rule_details] *)

Definition has_crule (shape_obj : Element) : bool :=
  bool_decide (is_Some (find "RULE" shape_obj)).

(** [e.text.strip()] when [e.text and e.text.strip()] holds. *)
Definition stripped_text (e : Element) : option string :=
  match text e with
  | Some t => if Py.truthy t && Py.truthy (Py.strip t) then Some (Py.strip t) else None
  | None => None
  end.

Definition extract_children_text (elem : Element) : gmap string string :=
  fold_left
    (fun data child =>
       if bool_decide (children child <> []) then
         fold_left
           (fun data subchild =>
              match stripped_text subchild with
              | Some t => <[tag child +:+ "." +:+ tag subchild := t]> data
              | None => data
              end)
           (children child) data
       else
         match stripped_text child with
         | Some t => <[tag child := t]> data
         | None => data
         end)
    (children elem) ∅.

Definition extract_rule_details (rule_elem : Element) : gmap string string :=
  fold_left
    (fun d child =>
       match stripped_text child with
       | Some t => <[tag child := t]> d
       | None => d
       end)
    (children rule_elem) ∅.

(** ** [extract_visuals] *)

Definition extract_visuals (shape : Element) : result (string * string * string) :=
  let stroke : option string := None in
  let fill : option string := None in
  let stroke_thickness : option string := None in
  let pen := find "Pen" shape in
  let* stroke :=
    match pen with
    | Some pen => let* h := decimal_to_hex (findtext "Color" pen) in Ok (Some h)
    | None => Ok stroke
    end in
  let fill_color := find "FillColor" shape in
  let* fill :=
    match fill_color with
    | Some fill_color =>
        let* h := decimal_to_hex (findtext "Color" fill_color) in Ok (Some h)
    | None => Ok fill
    end in
  let style := find "Style" shape in
  let stroke_thickness :=
    match style with
    | Some style => findtext "StrokeThickness" style
    | None => stroke_thickness
    end in
  let shape_style := find "ShapeStyle" shape in
  let* (stroke, fill) :=
    match shape_style with
    | Some shape_style =>
        let* stroke :=
          if negb (Py.otruthy stroke)
          then let* h := decimal_to_hex (findtext "LineColor" shape_style) in Ok (Some h)
          else Ok stroke in
        let* fill :=
          if negb (Py.otruthy fill)
          then let* h := decimal_to_hex (findtext "FillColor" shape_style) in Ok (Some h)
          else Ok fill in
        Ok (stroke, fill)
    | None => Ok (stroke, fill)
    end in
  Ok (Py.or_else stroke "#808080", Py.or_else stroke_thickness "1",
      Py.or_else fill "#808080").

(** ** [parse_xml] *)

(** The running bounds [min_x], [max_x], [min_y], [max_y]; each is [None]
    until a shape supplies a coordinate. *)
Record Extent : Type := mkExtent {
  min_x : option Z;
  max_x : option Z;
  min_y : option Z;
  max_y : option Z
}.

(** [v if m is None else min(m, v)] and its counterpart with [max]. *)
Definition lower_to (m : option Z) (v : Z) : Z :=
  match m with None => v | Some m => Z.min m v end.

Definition raise_to (m : option Z) (v : Z) : Z :=
  match m with None => v | Some m => Z.max m v end.

(** The four bound updates that follow each rectangle and each point. *)
Definition update_extent (ext : Extent) (x_lo x_hi y_lo y_hi : Z) : Extent :=
  {| min_x := Some (lower_to (min_x ext) x_lo);
     max_x := Some (raise_to (max_x ext) x_hi);
     min_y := Some (lower_to (min_y ext) y_lo);
     max_y := Some (raise_to (max_y ext) y_hi) |}.

(** A value stored in a [shape_dict] entry. *)
Inductive pyval : Type :=
| VStr (s : string)
| VInt (n : Z).

(** The local variables of [parse_xml] that live across iterations,
    together with the three module-level dictionaries it writes. The pair
    [canvas_width], [canvas_height] is unbound ([None]) until the first
    [ViewObject] iteration runs to its end. *)
Record State : Type := mkState {
  counter : Z;
  canvas_elements : list string;
  extent : Extent;
  canvas_size : option (Z * Z);
  parent_dict : gmap string string;
  shape_dict : gmap string (list (string * pyval));
  crule_dict : gmap string string
}.

Definition dq : string := String "034"%char EmptyString.

Definition quoted (s : string) : string := dq +:+ s +:+ dq.

Definition rectangle_xaml (sysname symbol_key : string)
    (counter width height left top : Z)
    (stroke stroke_thickness fill visibility : string) : string :=
  "<Rectangle Name="
  +:+ quoted (sysname +:+ "-rect-" +:+ symbol_key +:+ "-" +:+ Py.str counter)
  +:+ " Width=" +:+ quoted (Py.str width)
  +:+ " Height=" +:+ quoted (Py.str height)
  +:+ " Canvas.Left=" +:+ quoted (Py.str left)
  +:+ " Canvas.Top=" +:+ quoted (Py.str top)
  +:+ " Stroke=" +:+ quoted stroke
  +:+ " StrokeThickness=" +:+ quoted stroke_thickness
  +:+ " Fill=" +:+ quoted fill
  +:+ " Tag=" +:+ quoted "1"
  +:+ " Visibility=" +:+ quoted visibility
  +:+ " Canvas.ZIndex=" +:+ quoted "2" +:+ "/>".

Definition textblock_xaml (sysname symbol_key : string)
    (counter left top right bottom : Z) (visibility : string) : string :=
  "<TextBlock Name="
  +:+ quoted (sysname +:+ "-txt-" +:+ symbol_key +:+ "-" +:+ Py.str counter)
  +:+ " Text=" +:+ quoted "control"
  +:+ " Canvas.Left=" +:+ quoted (Py.str left)
  +:+ " Canvas.Top=" +:+ quoted (Py.str top)
  +:+ " Canvas.Right=" +:+ quoted (Py.str right)
  +:+ " Canvas.Bottom=" +:+ quoted (Py.str bottom)
  +:+ " Foreground=" +:+ quoted "#808080"
  +:+ " FontSize=" +:+ quoted "10"
  +:+ " FontWeight=" +:+ quoted "Normal"
  +:+ " Tag=" +:+ quoted "1"
  +:+ " Visibility=" +:+ quoted visibility +:+ "/>".

Definition polygon_xaml (sysname symbol_key : string) (counter : Z)
    (points stroke stroke_thickness fill visibility : string) : string :=
  "<Polygon Name="
  +:+ quoted (sysname +:+ "-poly-" +:+ symbol_key +:+ "-" +:+ Py.str counter)
  +:+ " Points=" +:+ quoted points
  +:+ " Stroke=" +:+ quoted stroke
  +:+ " StrokeThickness=" +:+ quoted stroke_thickness
  +:+ " Fill=" +:+ quoted fill
  +:+ " Tag=" +:+ quoted "17"
  +:+ " Visibility=" +:+ quoted visibility
  +:+ " Canvas.ZIndex=" +:+ quoted "2" +:+ "/>".

(** [rect.findtext(...)] read as integers, in the order the code reads
    them; [rect] is the result of a [find] and may be [None]. *)
Definition rect_fields (rect : option Element) : result (Z * Z * Z * Z) :=
  match rect with
  | None => Raise AttributeError
  | Some rect =>
      let* left_ := Py.int (findtext "Left" rect) in
      let* right_ := Py.int (findtext "Right" rect) in
      let* top_ := Py.int (findtext "Top" rect) in
      let* bottom_ := Py.int (findtext "Bottom" rect) in
      Ok (left_, right_, top_, bottom_)
  end.

(** One iteration of the loop over [PolyShape/Point]. *)
Definition point_body (acc : list string * Extent) (pt : Element)
  : result (list string * Extent) :=
  let '(points, ext) := acc in
  let* x := Py.int (findtext "X" pt) in
  let* y := Py.int (findtext "Y" pt) in
  Ok (points ++ [Py.str x +:+ "," +:+ Py.str y], update_extent ext x x y y).

Definition str_eq (a : option string) (b : string) : bool :=
  match a with Some s => String.eqb s b | None => false end.

(** One iteration of the loop over the [ShapeObject]s of a [SHAPEARRAY]. *)
Definition shape_body (sysname symbol_key : string) (st : State)
    (item : nat * Element) : result State :=
  let '(idx, shapeobject) := item in
  match find_desc "SHAPE" shapeobject with
  | None => Ok st
  | Some shape =>
      let* classname :=
        match find_path "MetaData" "ClassName" shape with
        | Some cn => Ok (text cn)
        | None => Raise AttributeError
        end in
      let rule_present := has_crule shapeobject in
      let visibility := if rule_present then "Collapsed" else "Visible" in
      let shape_key := "shape_" +:+ Py.str (Z.of_nat idx) in
      let* (stroke, stroke_thickness, fill) := extract_visuals shape in
      let* crules :=
        if rule_present then
          match find "RULE" shapeobject with
          | Some crule_elem => Ok (extract_rule_details crule_elem ∪ crule_dict st)
          | None => Raise TypeError
          end
        else Ok (crule_dict st) in
      if str_eq classname "CRectangle" then
        let counter := counter st + 1 in
        let rect := find "RectShape" shape in
        let* (left_, right_, top_, bottom_) := rect_fields rect in
        let width := right_ - left_ in
        let height := bottom_ - top_ in
        Ok {| counter := counter;
              canvas_elements := canvas_elements st ++
                [rectangle_xaml sysname symbol_key counter width height left_ top_
                   stroke stroke_thickness fill visibility];
              extent := update_extent (extent st) left_ right_ top_ bottom_;
              canvas_size := canvas_size st;
              parent_dict := parent_dict st;
              shape_dict :=
                <[shape_key :=
                    [("ClassName", VStr (sysname +:+ "-rect-" +:+ symbol_key));
                     ("Visibility", VStr visibility);
                     ("Tag", VStr "1");
                     ("Left", VInt left_);
                     ("Top", VInt top_);
                     ("Width", VInt width);
                     ("Height", VInt height);
                     ("Stroke", VStr stroke);
                     ("StrokeThickness", VStr stroke_thickness);
                     ("Fill", VStr fill)]]> (shape_dict st);
              crule_dict := crules |}
      else if str_eq classname "CTextBox" then
        let counter := counter st + 1 in
        let rect := find_path "Rectangle" "RectShape" shape in
        let* (left_, right_, top_, bottom_) := rect_fields rect in
        Ok {| counter := counter;
              canvas_elements := canvas_elements st ++
                [textblock_xaml sysname symbol_key counter left_ top_ right_ bottom_
                   visibility];
              extent := update_extent (extent st) left_ right_ top_ bottom_;
              canvas_size := canvas_size st;
              parent_dict := parent_dict st;
              shape_dict :=
                <[shape_key :=
                    [("ClassName", VStr (sysname +:+ "-txt-" +:+ symbol_key));
                     ("Visibility", VStr visibility);
                     ("Tag", VStr "1");
                     ("Left", VInt left_);
                     ("Top", VInt top_);
                     ("Right", VInt right_);
                     ("Bottom", VInt bottom_);
                     ("Text", VStr "control")]]> (shape_dict st);
              crule_dict := crules |}
      else if str_eq classname "CPolygon" || str_eq classname "CParallelogram" then
        let counter := counter st + 1 in
        let* (points, ext) :=
          for_each point_body (findall_path "PolyShape" "Point" shape)
                   ([], extent st) in
        Ok {| counter := counter;
              canvas_elements := canvas_elements st ++
                [polygon_xaml sysname symbol_key counter (Py.join " " points)
                   stroke stroke_thickness fill visibility];
              extent := ext;
              canvas_size := canvas_size st;
              parent_dict := parent_dict st;
              shape_dict :=
                <[shape_key :=
                    [("ClassName", VStr (sysname +:+ "-poly-" +:+ symbol_key));
                     ("Visibility", VStr visibility);
                     ("Tag", VStr "17");
                     ("Points", VStr (Py.join " " points));
                     ("Stroke", VStr stroke);
                     ("StrokeThickness", VStr stroke_thickness);
                     ("Fill", VStr fill)]]> (shape_dict st);
              crule_dict := crules |}
      else
        Ok {| counter := counter st;
              canvas_elements := canvas_elements st;
              extent := extent st;
              canvas_size := canvas_size st;
              parent_dict := parent_dict st;
              shape_dict := shape_dict st;
              crule_dict := crules |}
  end.

(** [enumerate(xs)] *)
Definition enumerate {A} (xs : list A) : list (nat * A) :=
  combine (seq 0 (length xs)) xs.

(** The canvas size computed at the end of a [ViewObject] iteration. *)
Definition size_of_extent (ext : Extent) : Z * Z :=
  match min_x ext, max_x ext, min_y ext, max_y ext with
  | Some x0, Some x1, Some y0, Some y1 => (x1 - x0, y1 - y0)
  | _, _, _, _ => (800, 600)
  end.

(** One iteration of the loop over the [ViewObject]s. The three
    dictionaries are cleared first; a [ViewObject] without [SHAPEARRAY]
    ends its iteration at the [continue], before the canvas size. *)
Definition viewobject_body (st : State) (viewobject : Element) : result State :=
  let parent := extract_children_text viewobject ∪ ∅ in
  let st := {| counter := counter st;
               canvas_elements := canvas_elements st;
               extent := extent st;
               canvas_size := canvas_size st;
               parent_dict := parent;
               shape_dict := ∅;
               crule_dict := ∅ |} in
  let symbol_key := default "0" (parent !! "SymbolKey") in
  let sysname := default "default" (parent !! "SysName") in
  match find "SHAPEARRAY" viewobject with
  | None => Ok st
  | Some shape_array =>
      let* st := for_each (shape_body sysname symbol_key)
                          (enumerate (findall_desc "ShapeObject" shape_array)) st in
      Ok {| counter := counter st;
            canvas_elements := canvas_elements st;
            extent := extent st;
            canvas_size := Some (size_of_extent (extent st));
            parent_dict := parent_dict st;
            shape_dict := shape_dict st;
            crule_dict := crule_dict st |}
  end.

(** The module-level dictionaries as [parse_xml] finds them. *)
Record Globals : Type := mkGlobals {
  g_parent_dict : gmap string string;
  g_shape_dict : gmap string (list (string * pyval));
  g_crule_dict : gmap string string
}.

Definition initial_state (g : Globals) : State :=
  {| counter := 0;
     canvas_elements := [];
     extent := mkExtent None None None None;
     canvas_size := None;
     parent_dict := g_parent_dict g;
     shape_dict := g_shape_dict g;
     crule_dict := g_crule_dict g |}.

(** The body of [parse_xml] up to its [return], on the root of the parsed
    document: the final values of its variables. *)
Definition parse_xml_run (g : Globals) (root : Element) : result State :=
  for_each viewobject_body (findall_desc "ViewObject" root) (initial_state g).

(** [parse_xml]: what the [return] statement hands back. *)
Definition parse_xml (g : Globals) (root : Element) : result (list string) :=
  let* st := parse_xml_run g root in
  Ok (canvas_elements st).

(** ** [validate_conversion] *)

(** One iteration of the loop that gathers, from the output tree, the set
    of tags and the set of attribute values. *)
Definition gather_elem (acc : gset string * gset string) (x_elem : Element)
  : gset string * gset string :=
  let '(xaml_tags, xaml_attributes) := acc in
  ({[tag x_elem]} ∪ xaml_tags,
   fold_left (fun attrs attr_val => {[attr_val]} ∪ attrs)
             (map snd (attrib x_elem)) xaml_attributes).

Definition gather_xaml (xaml_root : Element) : gset string * gset string :=
  fold_left gather_elem (iter xaml_root) (∅, ∅).

(** One iteration of the loop over the attributes of a source element. *)
Definition check_attr (xaml_attributes : gset string) (elem : Element)
    (mismatches : list string) (item : string * string) : list string :=
  let '(attr, value) := item in
  if bool_decide (value ∉ xaml_attributes)
  then mismatches ++ [tag elem +:+ " - Missing value: " +:+ attr +:+ "=" +:+ value]
  else mismatches.

(** One iteration of the loop over the source elements. *)
Definition check_elem (xaml_tags xaml_attributes : gset string)
    (mismatches : list string) (elem : Element) : list string :=
  if String.eqb (Py.lower (tag elem)) "root" then mismatches
  else
    let mismatches :=
      if bool_decide (tag elem ∉ xaml_tags)
      then mismatches ++ ["Missing tag: " +:+ tag elem]
      else mismatches in
    fold_left (check_attr xaml_attributes elem) (attrib elem) mismatches.

(** The list [mismatches] once the scan of the source tree is over. *)
Definition mismatches (root xaml_root : Element) : list string :=
  let '(xaml_tags, xaml_attributes) := gather_xaml xaml_root in
  fold_left (check_elem xaml_tags xaml_attributes) (iter root) [].

(** What the validator reports for a pair of parsed documents. *)
Inductive Report : Type :=
| Validation_successful
| Validation_failed (issues : list string).

Definition validate_conversion (root xaml_root : Element) : Report :=
  let ms := mismatches root xaml_root in
  if bool_decide (ms <> []) then Validation_failed ms else Validation_successful.

(** ** The attribute comparator: [find_matching_shapes], [choose_match],
    [compare_attributes] *)

Module PyMore.

(** [needle in hay] for two strings. *)
Fixpoint contains (needle hay : string) : bool :=
  String.prefix needle hay
  || match hay with
     | String _ hay' => contains needle hay'
     | EmptyString => false
     end.

(** [d.get(k)] on the attribute dictionary of an element. *)
Fixpoint dict_get (k : string) (d : list (string * string)) : option string :=
  match d with
  | [] => None
  | (k', v) :: d' => if String.eqb k' k then Some v else dict_get k d'
  end.

(** [a or b] where both are a string or [None]. *)
Definition or_opt (a b : option string) : option string :=
  if Py.otruthy a then a else b.

(** [str.isdigit] on ASCII: a non-empty run of the digits 0 to 9. *)
Definition is_ascii_digit (c : ascii) : bool :=
  let n := N_of_ascii c in ((48 <=? n)%N && (n <=? 57)%N).

Fixpoint all_digits (s : string) : bool :=
  match s with
  | String c s' => is_ascii_digit c && all_digits s'
  | EmptyString => true
  end.

Definition isdigit (s : string) : bool := Py.truthy s && all_digits s.

End PyMore.

(** One entry of the list [find_matching_shapes] returns: the element, the
    identifier found on it and the value of the requested attribute. *)
Definition Match : Type := (Element * string * option string)%type.

(** The identifier of an element: [id] or else [Name] in the source
    dialect, [x:Name] or else [Name] in the output dialect. *)
Definition id_attr (is_xml : bool) (elem : Element) : option string :=
  if is_xml
  then PyMore.or_opt (PyMore.dict_get "id" (attrib elem))
                     (PyMore.dict_get "Name" (attrib elem))
  else PyMore.or_opt (PyMore.dict_get "x:Name" (attrib elem))
                     (PyMore.dict_get "Name" (attrib elem)).

(** One iteration of the loop over [root.iter()]. *)
Definition match_elem (shape_id attribute : string) (is_xml : bool)
    (matches : list Match) (elem : Element) : list Match :=
  let id_attr := id_attr is_xml elem in
  match id_attr with
  | Some found =>
      if Py.truthy found then
        if PyMore.contains shape_id found then
          let attr_value := PyMore.dict_get attribute (attrib elem) in
          matches ++ [(elem, found, attr_value)]
        else matches
      else matches
  | None => matches
  end.

(** [root] is [None] when the document could not be read. *)
Definition find_matching_shapes (root : option Element) (shape_id attribute : string)
    (is_xml : bool) : list Match :=
  match root with
  | None => []
  | Some root => fold_left (match_elem shape_id attribute is_xml) (iter root) []
  end.

(** How a prompt for a choice ends: with an answer and the lines of input
    left unread, or with an exception. *)
Inductive prompt_error : Type :=
| EOFError          (* [input()] at the end of the input *)
| IntValueError     (* [int(choice)] on a string that is no literal *)
| IndexError.       (* [matches[idx]] out of range *)

Inductive Prompted (A : Type) : Type :=
| Answer (a : A) (unread : list string)
| Failed (e : prompt_error).
Arguments Answer {A} a unread.
Arguments Failed {A} e.

(** The [while True] loop of [choose_match], one line of input per turn. *)
Fixpoint choose_loop (matches : list Match) (inputs : list string)
  : Prompted (option string * option string) :=
  match inputs with
  | [] => Failed EOFError
  | line :: inputs' =>
      let choice := Py.strip line in
      if PyMore.isdigit choice then
        match Py.int_of_string choice with
        | None => Failed IntValueError
        | Some n =>
            let idx := n - 1 in
            if (0 <=? idx) && (idx <? Z.of_nat (length matches)) then
              match nth_error matches (Z.to_nat idx) with
              | Some (_, found_id, attr_val) => Answer (attr_val, Some found_id) inputs'
              | None => Failed IndexError
              end
            else choose_loop matches inputs'
        end
      else choose_loop matches inputs'
  end.

(** [choose_match], given the lines the user will type: the pair
    [(attr_val, found_id)] it returns. *)
Definition choose_match (matches : list Match) (inputs : list string)
  : Prompted (option string * option string) :=
  match matches with
  | [] => Answer (None, None) inputs
  | [(_, found_id, attr_val)] => Answer (attr_val, Some found_id) inputs
  | _ => choose_loop matches inputs
  end.

(** What [compare_attributes] prints. *)
Inductive Verdict : Type :=
| Comparison_failed
| Attribute_matches (value : string)
| Attribute_mismatch (xml_value xaml_value : string).

Definition compare_attributes (xml_value xaml_value : option string) : Verdict :=
  match xml_value, xaml_value with
  | Some x, Some y =>
      if String.eqb x y then Attribute_matches x else Attribute_mismatch x y
  | _, _ => Comparison_failed
  end.

(** [compare_shape_attributes] once the four answers of [get_input] are in:
    [xml_root] and [xaml_root] stand for what [parse_xml_with_dummy_root]
    returned for the two paths ([None] when a file could not be read or
    parsed), [inputs] for the lines typed afterwards. The result is the
    verdict [compare_attributes] prints. *)
Definition compare_shape_attributes (shape_id attribute : string)
    (xml_root xaml_root : option Element) (inputs : list string)
  : Prompted Verdict :=
  let xml_matches := find_matching_shapes xml_root shape_id attribute true in
  match choose_match xml_matches inputs with
  | Failed e => Failed e
  | Answer (xml_value, xml_found_id) inputs =>
      let xaml_matches := find_matching_shapes xaml_root shape_id attribute false in
      match choose_match xaml_matches inputs with
      | Failed e => Failed e
      | Answer (xaml_value, xaml_found_id) inputs =>
          Answer (compare_attributes xml_value xaml_value) inputs
      end
  end.

(** * Vocabulary of the statements

    Definitions used to state and prove the properties below; none of them
    is part of the program. *)

Module Voc.
Import Py.

(** The value of a digit list read most significant first. *)
Definition value_be (base : Z) (ds : list Z) (acc : Z) : Z :=
  fold_left (fun a d => base * a + d) ds acc.

Definition value_le (base : Z) (ds : list Z) : Z :=
  fold_right (fun d a => base * a + d) 0 ds.

Fixpoint all_chars (p : ascii -> bool) (s : string) : bool :=
  match s with
  | String c s' => p c && all_chars p s'
  | EmptyString => true
  end.

Definition spaceless (s : string) : bool := all_chars (fun c => negb (isspace c)) s.

(** The string does not open with a sign. *)
Definition unsigned_head (s : string) : bool :=
  match s with
  | String c _ => negb (Ascii.eqb c "+") && negb (Ascii.eqb c "-")
  | EmptyString => true
  end.

(** A colour string read back as a number and written in decimal:
    [str(int(h[1:], 16))]. This is how the statement about re-application
    interprets the output of [decimal_to_hex] as a decimal colour. *)
Definition hex_as_decimal (h : string) : option string :=
  match h with
  | String "#" body => str <$> int_signed 16 body
  | _ => None
  end.

(** The visibility a shape object is given. *)
Definition visibility_of (shapeobject : Element) : string :=
  if has_crule shapeobject then "Collapsed" else "Visible".


(** What one successful iteration over a shape object does to the state:
    the cases of [shape_body], read off its branches. *)
Inductive shape_step (sysname symbol_key : string) (st : State)
    (shapeobject : Element) (st' : State) : Prop :=
| step_no_shape :
    find_desc "SHAPE" shapeobject = None ->
    st' = st ->
    shape_step sysname symbol_key st shapeobject st'
| step_rectangle shape cn stroke thickness fill l r t b :
    find_desc "SHAPE" shapeobject = Some shape ->
    find_path "MetaData" "ClassName" shape = Some cn ->
    text cn = Some "CRectangle" ->
    extract_visuals shape = Ok (stroke, thickness, fill) ->
    rect_fields (find "RectShape" shape) = Ok (l, r, t, b) ->
    counter st' = counter st + 1 ->
    canvas_elements st' = canvas_elements st ++
      [rectangle_xaml sysname symbol_key (counter st + 1) (r - l) (b - t) l t
         stroke thickness fill (visibility_of shapeobject)] ->
    extent st' = update_extent (extent st) l r t b ->
    canvas_size st' = canvas_size st ->
    shape_step sysname symbol_key st shapeobject st'
| step_textbox shape cn l r t b :
    find_desc "SHAPE" shapeobject = Some shape ->
    find_path "MetaData" "ClassName" shape = Some cn ->
    text cn = Some "CTextBox" ->
    rect_fields (find_path "Rectangle" "RectShape" shape) = Ok (l, r, t, b) ->
    counter st' = counter st + 1 ->
    canvas_elements st' = canvas_elements st ++
      [textblock_xaml sysname symbol_key (counter st + 1) l t r b
         (visibility_of shapeobject)] ->
    extent st' = update_extent (extent st) l r t b ->
    canvas_size st' = canvas_size st ->
    shape_step sysname symbol_key st shapeobject st'
| step_polygon shape cn stroke thickness fill points ext :
    find_desc "SHAPE" shapeobject = Some shape ->
    find_path "MetaData" "ClassName" shape = Some cn ->
    text cn = Some "CPolygon" \/ text cn = Some "CParallelogram" ->
    extract_visuals shape = Ok (stroke, thickness, fill) ->
    for_each point_body (findall_path "PolyShape" "Point" shape) ([], extent st)
    = Ok (points, ext) ->
    counter st' = counter st + 1 ->
    canvas_elements st' = canvas_elements st ++
      [polygon_xaml sysname symbol_key (counter st + 1) (join " " points)
         stroke thickness fill (visibility_of shapeobject)] ->
    extent st' = ext ->
    canvas_size st' = canvas_size st ->
    shape_step sysname symbol_key st shapeobject st'
| step_other_class shape cn :
    find_desc "SHAPE" shapeobject = Some shape ->
    find_path "MetaData" "ClassName" shape = Some cn ->
    text cn <> Some "CRectangle" ->
    text cn <> Some "CTextBox" ->
    text cn <> Some "CPolygon" ->
    text cn <> Some "CParallelogram" ->
    counter st' = counter st ->
    canvas_elements st' = canvas_elements st ->
    extent st' = extent st ->
    canvas_size st' = canvas_size st ->
    shape_step sysname symbol_key st shapeobject st'.

(** The tag occurs somewhere in the tree. *)
Definition tag_in (t : string) (x : Element) : Prop :=
  exists e, In e (iter x) /\ tag e = t.

(** The string is the value of some attribute somewhere in the tree. *)
Definition value_in (v : string) (x : Element) : Prop :=
  exists e k, In e (iter x) /\ In (k, v) (attrib e).

(** A source element the validator looks at: any element of the tree
    whose tag is not [root] in some capitalisation. *)
Definition checked (root e : Element) : Prop :=
  In e (iter root) /\ lower (tag e) <> "root".

(** The issues one attribute and one element add to the list. *)
Definition attr_issues (xaml_attributes : gset string) (elem : Element)
    (item : string * string) : list string :=
  if bool_decide (snd item ∉ xaml_attributes)
  then [tag elem +:+ " - Missing value: " +:+ fst item +:+ "=" +:+ snd item]
  else [].

Definition elem_issues (xaml_tags xaml_attributes : gset string) (elem : Element)
  : list string :=
  if String.eqb (lower (tag elem)) "root" then []
  else (if bool_decide (tag elem ∉ xaml_tags) then ["Missing tag: " +:+ tag elem] else [])
       ++ flat_map (attr_issues xaml_attributes elem) (attrib elem).

End Voc.

(** Further vocabulary, for the properties of the second part. *)

Module VocX.
Import Py.


(** The four bounds are unset together or set together. *)
Definition uniform (ext : Extent) : Prop :=
  ext = mkExtent None None None None
  \/ exists x0 x1 y0 y1, ext = mkExtent (Some x0) (Some x1) (Some y0) (Some y1).

(** The state a view object's iteration starts its shape loop in, and the
    state it ends in after the loop. *)
Definition reset_dicts (st : State) (viewobject : Element) : State :=
  {| counter := counter st;
     canvas_elements := canvas_elements st;
     extent := extent st;
     canvas_size := canvas_size st;
     parent_dict := extract_children_text viewobject ∪ ∅;
     shape_dict := ∅;
     crule_dict := ∅ |}.

Definition with_canvas_size (st : State) : State :=
  {| counter := counter st;
     canvas_elements := canvas_elements st;
     extent := extent st;
     canvas_size := Some (size_of_extent (extent st));
     parent_dict := parent_dict st;
     shape_dict := shape_dict st;
     crule_dict := crule_dict st |}.

Definition sysname_of (viewobject : Element) : string :=
  default "default" ((extract_children_text viewobject ∪ ∅) !! "SysName").

Definition symbol_key_of (viewobject : Element) : string :=
  default "0" ((extract_children_text viewobject ∪ ∅) !! "SymbolKey").







(** The element is identified by a non-empty identifier that contains
    [shape_id]. *)
Definition identified (shape_id : string) (is_xml : bool) (elem : Element) : bool :=
  match id_attr is_xml elem with
  | Some found => truthy found && PyMore.contains shape_id found
  | None => false
  end.

(** What one element adds to the list of matches. *)
Definition match_of (shape_id attribute : string) (is_xml : bool) (elem : Element)
  : list Match :=
  match id_attr is_xml elem with
  | Some found =>
      if truthy found && PyMore.contains shape_id found
      then [(elem, found, PyMore.dict_get attribute (attrib elem))]
      else []
  | None => []
  end.

End VocX.

(** ** Sample documents *)

Module Samples.

Definition leaf (t : string) (x : string) : Element := Elem t [] (Some x) [].
Definition node (t : string) (cs : list Element) : Element := Elem t [] None cs.

Definition no_globals : Globals := mkGlobals ∅ ∅ ∅.

Definition rect_shape (l t r b : string) : Element :=
  node "RectShape" [leaf "Left" l; leaf "Top" t; leaf "Right" r; leaf "Bottom" b].

Definition class_name (c : string) : Element :=
  node "MetaData" [leaf "ClassName" c].

Definition rectangle (l t r b : string) : Element :=
  node "SHAPE" [class_name "CRectangle"; rect_shape l t r b].

Definition view (shapeobjects : list Element) : Element :=
  node "ViewObject"
    [leaf "SymbolKey" "42"; leaf "SysName" "Foo"; node "SHAPEARRAY" shapeobjects].

Definition document (views : list Element) : Element := node "Document" views.

(** One rectangle, no rule. *)
Definition rect_0_0_10_20 : Element := rect_shape "0" "0" "10" "20".

Definition shape_rect : Element :=
  node "SHAPE" [class_name "CRectangle"; rect_0_0_10_20].

Definition shapeobject_rect : Element := node "ShapeObject" [shape_rect].

Definition view_rect : Element := view [shapeobject_rect].

Definition doc_rect : Element := document [view_rect].

(** The same rectangle with a rule attached to its shape object. *)
Definition shapeobject_rule : Element :=
  node "ShapeObject" [rectangle "0" "0" "10" "20"; node "RULE" [leaf "Cond" "x"]].

Definition doc_rect_rule : Element := document [view [shapeobject_rule]].

(** The state in which the first shape object of a document is met, and
    the state one iteration over [shapeobject_rule] leaves. *)
Definition state_before : State := initial_state no_globals.

Definition state_after_rule : State :=
  match shape_body "Foo" "42" state_before (O, shapeobject_rule) with
  | Ok st => st
  | Raise _ => state_before
  end.

(** A shape whose metadata has no class name, followed by the rectangle. *)
Definition shapeobject_no_classname : Element :=
  node "ShapeObject" [node "SHAPE" [node "MetaData" []; rect_0_0_10_20]].

Definition doc_no_classname : Element :=
  document [view [shapeobject_no_classname; shapeobject_rect]].

(** A shape of a class the extractor does not know, a shape object
    without payload and a class-name element without text, followed by the
    rectangle. *)
Definition shapeobject_ellipse : Element :=
  node "ShapeObject" [node "SHAPE" [class_name "CEllipse"]].

Definition shapeobject_bare : Element := node "ShapeObject" [].

Definition shapeobject_blank_class : Element :=
  node "ShapeObject" [node "SHAPE" [node "MetaData" [node "ClassName" []]]].

Definition doc_skips : Element :=
  document [view [shapeobject_ellipse; shapeobject_bare; shapeobject_blank_class;
                  shapeobject_rect]].

(** A polygon whose point list is empty. *)
Definition empty_polygon : Element :=
  node "SHAPE" [class_name "CPolygon"; node "PolyShape" []].

Definition shapeobject_empty_polygon : Element := node "ShapeObject" [empty_polygon].

Definition doc_empty_polygon : Element := document [view [shapeobject_empty_polygon]].

(** A document without any view object. *)
Definition doc_empty : Element := document [].

(** The variables of [parse_xml] at its [return], for [doc_rect]. *)
Definition final_rect : State :=
  match parse_xml_run no_globals doc_rect with
  | Ok st => st
  | Raise _ => state_before
  end.

(** A source tree and the output trees it is validated against. *)
Definition source_tree : Element :=
  Elem "Root" [("version", "7")] None
    [Elem "Rectangle" [("Name", "r1")] None []].

Definition output_tree : Element :=
  Elem "Canvas" [] None
    [Elem "Rectangle" [("Name", "r1"); ("Width", "10")] None []].

Definition source_rectangle : Element := Elem "Rectangle" [("Name", "r1")] None [].

Definition output_renamed : Element :=
  Elem "Canvas" [] None
    [Elem "Rectangle" [("Name", "r2"); ("Width", "10")] None []].

(** Pen colour 255 (blue), shape-style line colour 16711680 (red). *)
Definition pen_blue : Element := node "Pen" [leaf "Color" "255"].
Definition style_red : Element :=
  node "ShapeStyle" [leaf "LineColor" "16711680"; leaf "FillColor" "65280"].
Definition shape_both : Element := node "SHAPE" [pen_blue; style_red].

(** A pen without colour and a fill colour that is no number, next to a
    shape style that holds valid colours. *)
Definition pen_bare : Element := node "Pen" [].
Definition fill_bad : Element := node "FillColor" [leaf "Color" "green"].
Definition shape_gated : Element := node "SHAPE" [pen_bare; fill_bad; style_red].

End Samples.


(** ** Further sample documents *)

Module MoreSamples.
Import Samples.

(** A rule element in which the tag [Cond] occurs twice. *)
Definition rule_twice : Element :=
  node "RULE" [leaf "Cond" " x "; leaf "Cond" "y"; node "Note" []].

(** A view object whose symbol key is surrounded by blanks. *)
Definition view_padded_key : Element :=
  node "ViewObject" [leaf "SysName" "Foo"; leaf "SymbolKey" " 42 "].

(** A document whose last view object has no shape array. *)
Definition view_bare : Element := node "ViewObject" [leaf "SysName" "Bar"].

Definition doc_two_views : Element := document [view_rect; view_bare].

Definition final_two_views : State :=
  match parse_xml_run no_globals doc_two_views with
  | Ok st => st
  | Raise _ => state_before
  end.






(** An output tree that repeats the rectangle of [output_tree]. *)
Definition output_repeated : Element :=
  Elem "Canvas" [] None
    [Elem "Rectangle" [("Name", "r1"); ("Width", "10")] None [];
     Elem "Rectangle" [("Name", "r1"); ("Width", "10")] None []].

Definition output_empty : Element := Elem "Canvas" [] None [].

(** Elements with identifiers, in the two dialects. *)
Definition shape_with_id : Element :=
  Elem "Shape" [("id", "abc"); ("Name", "xyz"); ("Width", "10")] None [].

Definition xml_shapes : Element :=
  Elem "Shapes" [] None
    [shape_with_id; Elem "Shape" [("Name", "SKN689Tc"); ("Width", "10")] None []].

Definition xaml_shapes : Element :=
  Elem "Canvas" [] None
    [Elem "Rectangle" [("Name", "Foo-rect-SKN689Tc-1"); ("Width", "10")] None [];
     Elem "Rectangle" [("Name", "Foo-rect-SKN689Tc-2"); ("Width", "12")] None []].

Definition two_candidates : list Match :=
  find_matching_shapes (Some xaml_shapes) "SKN" "Width" false.

End MoreSamples.

(** * Properties *)

(** ** The primitives and the pass on concrete inputs *)

Section Evaluations.
Import Py.

Example int_padded : int_of_string "  42 " = Some 42.
Proof. vm_compute. reflexivity. Qed.

Example int_underscore : int_of_string "1_000" = Some 1000.
Proof. vm_compute. reflexivity. Qed.

Example int_double_underscore : int_of_string "1__0" = None.
Proof. vm_compute. reflexivity. Qed.

Example int_sign_alone : int_of_string "-" = None.
Proof. vm_compute. reflexivity. Qed.

Example int_hex_literal : int_of_string "0x10" = None.
Proof. vm_compute. reflexivity. Qed.

Example str_negative : str (-120) = "-120".
Proof. vm_compute. reflexivity. Qed.

Example str_zero : str 0 = "0".
Proof. vm_compute. reflexivity. Qed.

Example strip_both_ends : strip "  a b  " = "a b".
Proof. vm_compute. reflexivity. Qed.

Example hex_blue : decimal_to_hex (Some "255") = Ok "#0000FF".
Proof. vm_compute. reflexivity. Qed.

Example hex_zero : decimal_to_hex (Some "0") = Ok "#000000".
Proof. vm_compute. reflexivity. Qed.

(** Beyond 24 bits nothing is masked: seven digits come out. *)
Example hex_wide : decimal_to_hex (Some "16777216") = Ok "#1000000".
Proof. vm_compute. reflexivity. Qed.

Example hex_text : decimal_to_hex (Some "blue") = Ok "#808080".
Proof. vm_compute. reflexivity. Qed.

(** The one-rectangle document, without and with a rule. *)
Example run_rect :
  parse_xml Samples.no_globals Samples.doc_rect
  = Ok ["<Rectangle Name=" +:+ quoted "Foo-rect-42-1"
        +:+ " Width=" +:+ quoted "10" +:+ " Height=" +:+ quoted "20"
        +:+ " Canvas.Left=" +:+ quoted "0" +:+ " Canvas.Top=" +:+ quoted "0"
        +:+ " Stroke=" +:+ quoted "#808080" +:+ " StrokeThickness=" +:+ quoted "1"
        +:+ " Fill=" +:+ quoted "#808080" +:+ " Tag=" +:+ quoted "1"
        +:+ " Visibility=" +:+ quoted "Visible"
        +:+ " Canvas.ZIndex=" +:+ quoted "2" +:+ "/>"].
Proof. vm_compute. reflexivity. Qed.

Example run_rect_rule :
  parse_xml Samples.no_globals Samples.doc_rect_rule
  = Ok [rectangle_xaml "Foo" "42" 1 10 20 0 0 "#808080" "1" "#808080" "Collapsed"].
Proof. vm_compute. reflexivity. Qed.

End Evaluations.



(** ** Integers and their renderings *)

Module PyFacts.
Import Py Voc.

Lemma char_value_digit_char d : 0 <= d < 16 -> char_value (digit_char d) = Some d.
Proof.
  intros Hd.
  assert (Hcases : d = 0 \/ d = 1 \/ d = 2 \/ d = 3 \/ d = 4 \/ d = 5 \/ d = 6 \/ d = 7
          \/ d = 8 \/ d = 9 \/ d = 10 \/ d = 11 \/ d = 12 \/ d = 13 \/ d = 14 \/ d = 15)
    by lia.
  repeat (destruct Hcases as [-> | Hcases]; [reflexivity |]).
  subst d. reflexivity.
Qed.

Lemma char_digit_digit_char base d :
  0 <= d < base -> base <= 16 -> char_digit base (digit_char d) = Some d.
Proof.
  intros Hd Hb. unfold char_digit.
  rewrite char_value_digit_char by lia.
  destruct (Z.ltb_spec0 d base) as [_ | Hn]; [reflexivity | lia].
Qed.

Lemma isspace_digit_char d : 0 <= d < 16 -> isspace (digit_char d) = false.
Proof.
  intros Hd.
  assert (Hcases : d = 0 \/ d = 1 \/ d = 2 \/ d = 3 \/ d = 4 \/ d = 5 \/ d = 6 \/ d = 7
          \/ d = 8 \/ d = 9 \/ d = 10 \/ d = 11 \/ d = 12 \/ d = 13 \/ d = 14 \/ d = 15)
    by lia.
  repeat (destruct Hcases as [-> | Hcases]; [reflexivity |]).
  subst d. reflexivity.
Qed.

Lemma int_digits_all_digits base ds :
  base <= 16 -> Forall (fun d => 0 <= d < base) ds -> ds <> [] ->
  forall acc fresh,
    int_digits base acc fresh (string_of_list_ascii (map digit_char ds))
    = Some (value_be base ds acc).
Proof.
  intros Hb Hall. induction Hall as [| d ds Hd Hall IH]; intros Hne acc fresh.
  - congruence.
  - cbn [map string_of_list_ascii int_digits value_be fold_left].
    rewrite char_digit_digit_char by assumption.
    destruct ds as [| d' ds'].
    + reflexivity.
    + apply IH. discriminate.
Qed.

Lemma digits_le_range base fuel n :
  0 < base -> Forall (fun d => 0 <= d < base) (digits_le base fuel n).
Proof.
  intros Hb. revert n. induction fuel as [| fuel IH]; intros n; cbn [digits_le].
  - constructor.
  - constructor.
    + apply Z.mod_pos_bound. exact Hb.
    + destruct (n / base =? 0); [constructor | apply IH].
Qed.

Lemma digits_le_value base fuel n :
  2 <= base -> 0 <= n < 2 ^ Z.of_nat fuel ->
  value_le base (digits_le base fuel n) = n.
Proof.
  intros Hb. revert n. induction fuel as [| fuel IH]; intros n Hn.
  - cbn in *. lia.
  - cbn [digits_le value_le fold_right].
    pose proof (Z.div_mod n base ltac:(lia)) as Hdm.
    destruct (Z.eqb_spec (n / base) 0) as [Hz | Hnz].
    + cbn. lia.
    + fold (value_le base (digits_le base fuel (n / base))).
      rewrite IH; [lia |].
      rewrite Nat2Z.inj_succ, Z.pow_succ_r in Hn by lia.
      split.
      * apply Z.div_pos; lia.
      * apply Z.div_lt_upper_bound; [lia |].
        assert (0 < 2 ^ Z.of_nat fuel) by (apply Z.pow_pos_nonneg; lia).
        nia.
Qed.

Lemma digits_range base n :
  0 < base -> Forall (fun d => 0 <= d < base) (digits base n).
Proof.
  intros Hb. unfold digits. apply Forall_rev. apply digits_le_range. exact Hb.
Qed.

Lemma digits_nonempty base n : digits base n <> [].
Proof.
  unfold digits. intros H.
  apply (f_equal (@rev Z)) in H. rewrite rev_involutive in H.
  cbn [digits_le rev] in H. discriminate H.
Qed.

Lemma digits_value base n :
  2 <= base -> 0 <= n -> value_be base (digits base n) 0 = n.
Proof.
  intros Hb Hn. unfold digits, value_be.
  rewrite <- fold_left_rev_right, rev_involutive.
  apply (digits_le_value base _ n Hb).
  split; [exact Hn |].
  destruct (Z.eq_dec n 0) as [-> | Hnz].
  - cbn. lia.
  - rewrite Nat2Z.inj_succ, Z2Nat.id by apply Z.log2_nonneg.
    apply Z.log2_spec. lia.
Qed.

(** Reading back the digits printed for [n] gives [n]. *)
Lemma int_digits_digit_string base n fresh :
  2 <= base <= 16 -> 0 <= n ->
  int_digits base 0 fresh (digit_string base n) = Some n.
Proof.
  intros Hb Hn. unfold digit_string.
  rewrite int_digits_all_digits.
  - rewrite digits_value by lia. reflexivity.
  - lia.
  - apply digits_range. lia.
  - apply digits_nonempty.
Qed.

Lemma int_digits_zeros base k s fresh :
  0 < base <= 16 ->
  int_digits base 0 fresh (zeros k +:+ s)
  = int_digits base 0 (match k with O => fresh | S _ => false end) s.
Proof.
  intros Hb. revert fresh. induction k as [| k IH]; intros fresh.
  - reflexivity.
  - change (zeros (S k) +:+ s) with (String (digit_char 0) (zeros k +:+ s)).
    cbn [int_digits].
    rewrite char_digit_digit_char by lia.
    replace (base * 0 + 0) with 0 by lia.
    rewrite IH. destruct k; reflexivity.
Qed.


(** *** Strings without spaces are left alone by [strip] *)

Lemma lstrip_spaceless s : spaceless s = true -> lstrip s = s.
Proof.
  destruct s as [| c s]; [reflexivity |]. cbn.
  intros H. apply andb_true_iff in H as [Hc _].
  apply negb_true_iff in Hc. rewrite Hc. reflexivity.
Qed.

Lemma rstrip_spaceless s : spaceless s = true -> rstrip s = s.
Proof.
  induction s as [| c s IH]; [reflexivity |]. cbn.
  intros H. apply andb_true_iff in H as [Hc Hs].
  apply negb_true_iff in Hc. rewrite (IH Hs), Hc.
  destruct s; reflexivity.
Qed.

Lemma strip_spaceless s : spaceless s = true -> strip s = s.
Proof.
  intros H. unfold strip. rewrite (lstrip_spaceless s H). apply rstrip_spaceless, H.
Qed.

Lemma spaceless_digit_chars ds :
  Forall (fun d => 0 <= d < 16) ds ->
  spaceless (string_of_list_ascii (map digit_char ds)) = true.
Proof.
  induction 1 as [| d ds Hd _ IH]; [reflexivity |]. cbn.
  rewrite isspace_digit_char by exact Hd. exact IH.
Qed.

Lemma spaceless_digit_string base n :
  0 < base <= 16 -> spaceless (digit_string base n) = true.
Proof.
  intros Hb. apply spaceless_digit_chars.
  eapply List.Forall_impl; [| apply (digits_range base n); lia].
  cbn. intros d Hd. lia.
Qed.

Lemma spaceless_str n : spaceless (str n) = true.
Proof.
  unfold str. destruct (n <? 0).
  - cbn. apply (spaceless_digit_string 10). lia.
  - apply (spaceless_digit_string 10). lia.
Qed.

(** *** Signs *)

Lemma int_signed_unsigned base s :
  unsigned_head s = true -> int_signed base s = int_digits base 0 true s.
Proof.
  destruct s as [| c s]; [reflexivity |]. cbn [unsigned_head int_signed].
  intros H. apply andb_true_iff in H as [Hp Hm].
  apply negb_true_iff in Hp, Hm. rewrite Hp, Hm. reflexivity.
Qed.

Lemma digit_char_unsigned d :
  0 <= d < 16 ->
  negb (Ascii.eqb (digit_char d) "+") && negb (Ascii.eqb (digit_char d) "-") = true.
Proof.
  intros Hd.
  assert (Hcases : d = 0 \/ d = 1 \/ d = 2 \/ d = 3 \/ d = 4 \/ d = 5 \/ d = 6 \/ d = 7
          \/ d = 8 \/ d = 9 \/ d = 10 \/ d = 11 \/ d = 12 \/ d = 13 \/ d = 14 \/ d = 15)
    by lia.
  repeat (destruct Hcases as [-> | Hcases]; [reflexivity |]).
  subst d. reflexivity.
Qed.

Lemma unsigned_head_digit_string base n :
  0 < base <= 16 -> unsigned_head (digit_string base n) = true.
Proof.
  intros Hb. unfold digit_string.
  pose proof (digits_range base n ltac:(lia)) as Hall.
  destruct Hall as [| d ds Hd _]; [reflexivity |].
  cbn. apply digit_char_unsigned. lia.
Qed.

Lemma unsigned_head_zeros k s :
  unsigned_head s = true -> unsigned_head (zeros k +:+ s) = true.
Proof. destruct k; [exact (fun H => H) | reflexivity]. Qed.

Lemma truthy_digit_string base n : truthy (digit_string base n) = true.
Proof.
  unfold digit_string. pose proof (digits_nonempty base n) as Hne.
  destruct (digits base n); [congruence | reflexivity].
Qed.

Lemma truthy_str n : truthy (str n) = true.
Proof.
  unfold str. destruct (n <? 0); [reflexivity | apply truthy_digit_string].
Qed.

(** *** Reading back what was printed *)

(** [int(str(n)) == n] *)
Lemma int_of_string_str n : int_of_string (str n) = Some n.
Proof.
  unfold int_of_string. rewrite strip_spaceless by apply spaceless_str.
  unfold str. destruct (Z.ltb_spec n 0) as [Hneg | Hpos].
  - cbn [int_signed]. change (Ascii.eqb "-" "+") with false.
    change (Ascii.eqb "-" "-") with true. cbv iota.
    rewrite int_digits_digit_string by lia. cbn. f_equal. lia.
  - rewrite int_signed_unsigned by (apply unsigned_head_digit_string; lia).
    apply int_digits_digit_string; lia.
Qed.

(** [int(format(n, "06X"), 16) == n] *)
Lemma int_signed_format_06X n : int_signed 16 (format_06X n) = Some n.
Proof.
  unfold format_06X. destruct (Z.ltb_spec n 0) as [Hneg | Hpos].
  - change ("-" +:+ ?x) with (String "-"%char x).
    cbn [int_signed]. change (Ascii.eqb "-" "+") with false.
    change (Ascii.eqb "-" "-") with true. cbv iota.
    rewrite int_digits_zeros by lia.
    assert (Hd : forall fresh, int_digits 16 0 fresh (digit_string 16 (Z.abs n)) = Some (Z.abs n))
      by (intros; apply int_digits_digit_string; lia).
    destruct (_ - _)%nat; rewrite Hd; cbn; f_equal; lia.
  - change (EmptyString +:+ ?x) with x.
    rewrite int_signed_unsigned
      by (apply unsigned_head_zeros, unsigned_head_digit_string; lia).
    rewrite int_digits_zeros by lia.
    rewrite Z.abs_eq by lia.
    destruct (_ - _)%nat; apply int_digits_digit_string; lia.
Qed.

(** No string that opens with [#] is an integer literal. *)
Lemma int_of_string_hash s : int_of_string (String "#" s) = None.
Proof.
  unfold int_of_string, strip.
  change (lstrip (String "#" s)) with (String "#" s).
  cbn [rstrip]. change (isspace "#") with false. cbv iota.
  destruct (rstrip s); reflexivity.
Qed.

End PyFacts.

(** ** The colour normaliser *)

Section Decimal_to_hex.
Import Py Voc PyFacts.

Lemma int_some s : Py.int (Some s) = match int_of_string s with
                                     | Some n => Ok n
                                     | None => Raise ValueError
                                     end.
Proof. reflexivity. Qed.

(** The only exception [int] raises on a string is [ValueError]. *)
Lemma int_string_raises s e : Py.int (Some s) = Raise e -> e = ValueError.
Proof. rewrite int_some. destruct (int_of_string s); congruence. Qed.

Lemma decimal_to_hex_falsy v : otruthy v = false -> decimal_to_hex v = Ok "#808080".
Proof. intros H. unfold decimal_to_hex. rewrite H. reflexivity. Qed.

Lemma decimal_to_hex_unparsable s :
  int_of_string s = None -> decimal_to_hex (Some s) = Ok "#808080".
Proof.
  intros H. unfold decimal_to_hex. rewrite int_some, H.
  destruct (negb _); reflexivity.
Qed.

Lemma int_of_string_truthy s n : int_of_string s = Some n -> truthy s = true.
Proof. destruct s; [discriminate | reflexivity]. Qed.

Lemma decimal_to_hex_int s n :
  int_of_string s = Some n -> decimal_to_hex (Some s) = Ok ("#" +:+ format_06X n).
Proof.
  intros H. unfold decimal_to_hex. cbn [otruthy].
  rewrite (int_of_string_truthy s n H), int_some, H. reflexivity.
Qed.

(** [decimal_to_hex] returns, and what it returns opens with [#]. *)
Lemma decimal_to_hex_returns v : exists body, decimal_to_hex v = Ok (String "#" body).
Proof.
  destruct v as [s |]; [| eexists; reflexivity].
  destruct (int_of_string s) as [n |] eqn:Hn.
  - rewrite (decimal_to_hex_int s n Hn). eexists. reflexivity.
  - rewrite (decimal_to_hex_unparsable s Hn). eexists. reflexivity.
Qed.





(** C8, as the code has it: reading the output of [decimal_to_hex] back
    as a number, writing that number in decimal and applying
    [decimal_to_hex] again gives the same output, for every input; applied
    to its own output as it stands, [decimal_to_hex] gives ["#808080"]
    whatever the input was; and both the absent and the empty input give
    ["#808080"]. *)
Theorem decimal_to_hex_reapplied (v : option string) :
  (exists h d, decimal_to_hex v = Ok h
               /\ hex_as_decimal h = Some d
               /\ decimal_to_hex (Some d) = Ok h
               /\ decimal_to_hex (Some h) = Ok "#808080")
  /\ decimal_to_hex None = Ok "#808080"
  /\ decimal_to_hex (Some EmptyString) = Ok "#808080".
Proof.
  split; [| split; reflexivity].
  assert (Hfallback : hex_as_decimal "#808080" = Some "8421504"
                      /\ decimal_to_hex (Some "8421504") = Ok "#808080"
                      /\ decimal_to_hex (Some "#808080") = Ok "#808080")
    by (repeat split; vm_compute; reflexivity).
  destruct Hfallback as (Hf1 & Hf2 & Hf3).
  destruct v as [s |].
  - destruct (int_of_string s) as [n |] eqn:Hn.
    + exists ("#" +:+ format_06X n), (str n).
      split; [apply decimal_to_hex_int, Hn |].
      split; [| split].
      * change (hex_as_decimal ("#" +:+ format_06X n))
          with (str <$> int_signed 16 (format_06X n)).
        rewrite int_signed_format_06X. reflexivity.
      * apply decimal_to_hex_int, int_of_string_str.
      * apply decimal_to_hex_unparsable, int_of_string_hash.
    + exists "#808080", "8421504".
      split; [apply decimal_to_hex_unparsable, Hn | auto].
  - exists "#808080", "8421504". split; [reflexivity | auto].
Qed.

(** The claim C8 as worded, [toHex(toHex(v)) = toHex(v)], fails at
    ["255"]: the first application gives ["#0000FF"], and that string is
    not an integer literal, so the second gives ["#808080"]. *)
Lemma decimal_to_hex_not_idempotent :
  decimal_to_hex (Some "255") = Ok "#0000FF"
  /\ decimal_to_hex (Some "#0000FF") = Ok "#808080"
  /\ decimal_to_hex (Some "#0000FF") <> decimal_to_hex (Some "255").
Proof.
  split; [vm_compute; reflexivity |].
  split; [vm_compute; reflexivity |].
  vm_compute. discriminate.
Qed.

End Decimal_to_hex.

(** ** The visual property resolver *)

Section Extract_visuals.
Import Py.

(** Replaces every call of [decimal_to_hex] in the goal by its result. *)
Ltac hex_calls :=
  repeat match goal with
    | |- context [decimal_to_hex ?x] =>
        let body := fresh "body" in
        let Hb := fresh "Hb" in
        destruct (decimal_to_hex_returns x) as [body Hb];
        rewrite Hb; clear Hb; cbn [rbind otruthy truthy negb]
    end.

(** Whenever the shape has a [Pen] child, the stroke is the colour of that
    child's [Color] field, whatever else the shape holds. *)
Lemma extract_visuals_pen shape pen :
  find "Pen" shape = Some pen ->
  exists h t f,
    decimal_to_hex (findtext "Color" pen) = Ok h
    /\ extract_visuals shape = Ok (h, t, f).
Proof.
  intros Hpen. unfold extract_visuals. rewrite Hpen.
  destruct (decimal_to_hex_returns (findtext "Color" pen)) as [body Hb].
  rewrite Hb. cbn [rbind].
  destruct (find "FillColor" shape), (find "ShapeStyle" shape);
    hex_calls; cbn [or_else truthy]; eauto.
Qed.

(** The same for the fill and a [FillColor] child. *)
Lemma extract_visuals_fill_color shape fill_color :
  find "FillColor" shape = Some fill_color ->
  exists s t h,
    decimal_to_hex (findtext "Color" fill_color) = Ok h
    /\ extract_visuals shape = Ok (s, t, h).
Proof.
  intros Hfc. unfold extract_visuals. rewrite Hfc.
  destruct (decimal_to_hex_returns (findtext "Color" fill_color)) as [body Hb].
  destruct (find "Pen" shape), (find "ShapeStyle" shape);
    hex_calls; rewrite ?Hb; cbn [rbind otruthy truthy negb];
    hex_calls; cbn [or_else truthy]; eauto.
Qed.

(** [extract_visuals] raises nothing. *)
Lemma extract_visuals_returns shape : exists r, extract_visuals shape = Ok r.
Proof.
  unfold extract_visuals.
  destruct (find "Pen" shape), (find "FillColor" shape), (find "ShapeStyle" shape);
    hex_calls; eauto.
Qed.

(** C6: when the shape's [Pen] holds a [Color] field and its [ShapeStyle]
    holds a [LineColor] field, the resolved stroke is the hex
    normalisation of the [Pen/Color] value; it is the normalisation of the
    [ShapeStyle/LineColor] value only where the two normalisations
    coincide. The fields are those the resolver looks up: the first [Pen]
    and [ShapeStyle] children, and their first [Color] and [LineColor]
    children. *)
Theorem extract_visuals_pen_precedence shape pen shape_style c lc :
  find "Pen" shape = Some pen ->
  findtext "Color" pen = Some c ->
  find "ShapeStyle" shape = Some shape_style ->
  findtext "LineColor" shape_style = Some lc ->
  exists stroke thickness fill,
    extract_visuals shape = Ok (stroke, thickness, fill)
    /\ decimal_to_hex (Some c) = Ok stroke
    /\ (decimal_to_hex (Some lc) <> decimal_to_hex (Some c) ->
        decimal_to_hex (Some lc) <> Ok stroke).
Proof.
  intros Hpen Hc _ _.
  destruct (extract_visuals_pen shape pen Hpen) as (h & t & f & Hh & Hv).
  rewrite Hc in Hh. exists h, t, f.
  split; [exact Hv |]. split; [exact Hh |].
  rewrite Hh. exact (fun H => H).
Qed.

End Extract_visuals.

Lemma extract_visuals_pen_precedence_witness :
  exists stroke thickness fill,
    extract_visuals Samples.shape_both = Ok (stroke, thickness, fill)
    /\ decimal_to_hex (Some "255") = Ok stroke
    /\ (decimal_to_hex (Some "16711680") <> decimal_to_hex (Some "255") ->
        decimal_to_hex (Some "16711680") <> Ok stroke).
Proof.
  apply (extract_visuals_pen_precedence Samples.shape_both
           Samples.pen_blue Samples.style_red "255" "16711680");
    reflexivity.
Defined.

Section Extract_visuals_gate.
Import Py.

(** C9: the [ShapeStyle] fallback is gated on the presence of the primary
    element, not on a usable colour in it. If the shape has a [Pen] child
    whose [Color] field is absent or is not an integer literal, the stroke
    is ["#808080"], for every shape and so whatever its [ShapeStyle] holds;
    and likewise for the fill when the shape has a [FillColor] child whose
    [Color] field is absent or is not an integer literal. *)
Theorem extract_visuals_gated_on_presence shape :
  (forall pen,
      find "Pen" shape = Some pen ->
      (findtext "Color" pen = None
       \/ exists c, findtext "Color" pen = Some c /\ int_of_string c = None) ->
      exists thickness fill,
        extract_visuals shape = Ok ("#808080", thickness, fill))
  /\ (forall fill_color,
         find "FillColor" shape = Some fill_color ->
         (findtext "Color" fill_color = None
          \/ exists c, findtext "Color" fill_color = Some c /\ int_of_string c = None) ->
         exists stroke thickness,
           extract_visuals shape = Ok (stroke, thickness, "#808080")).
Proof.
  split.
  - intros pen Hpen Hcolor.
    destruct (extract_visuals_pen shape pen Hpen) as (h & t & f & Hh & Hv).
    assert (h = "#808080") as ->; [| eauto].
    destruct Hcolor as [Hnone | (c & Hc & Hbad)].
    + rewrite Hnone in Hh. cbn in Hh. congruence.
    + rewrite Hc, (decimal_to_hex_unparsable c Hbad) in Hh. congruence.
  - intros fc Hfc Hcolor.
    destruct (extract_visuals_fill_color shape fc Hfc) as (s & t & h & Hh & Hv).
    assert (h = "#808080") as ->; [| eauto].
    destruct Hcolor as [Hnone | (c & Hc & Hbad)].
    + rewrite Hnone in Hh. cbn in Hh. congruence.
    + rewrite Hc, (decimal_to_hex_unparsable c Hbad) in Hh. congruence.
Qed.

End Extract_visuals_gate.

Lemma extract_visuals_gated_on_presence_witness :
  (exists thickness fill,
      extract_visuals Samples.shape_gated = Ok ("#808080", thickness, fill))
  /\ (exists stroke thickness,
         extract_visuals Samples.shape_gated = Ok (stroke, thickness, "#808080")).
Proof.
  split.
  - apply (proj1 (extract_visuals_gated_on_presence Samples.shape_gated) Samples.pen_bare);
      [reflexivity | left; reflexivity].
  - apply (proj2 (extract_visuals_gated_on_presence Samples.shape_gated) Samples.fill_bad);
      [reflexivity | right; exists "green"; split; vm_compute; reflexivity].
Defined.

(** The shape style of [shape_gated] holds usable colours: without the
    bare pen and the bad fill colour they are the ones resolved. *)
Example shape_style_alone :
  extract_visuals (Samples.node "SHAPE" [Samples.style_red])
  = Ok ("#FF0000", "1", "#00FF00").
Proof. vm_compute. reflexivity. Qed.

(** ** One shape object *)

Section Shape_body.
Import Py Voc.

Lemma str_eq_true a b : str_eq a b = true <-> a = Some b.
Proof.
  destruct a as [s |]; cbn; [| split; discriminate].
  rewrite String.eqb_eq. split; congruence.
Qed.

Lemma str_eq_false a b : str_eq a b = false <-> a <> Some b.
Proof.
  rewrite <- str_eq_true. destruct (str_eq a b); split; congruence.
Qed.

Lemma has_crule_find shape_obj :
  has_crule shape_obj = true <-> exists r, find "RULE" shape_obj = Some r.
Proof. unfold has_crule. rewrite bool_decide_eq_true. reflexivity. Qed.

(** A rule is present exactly when a child of the shape object is tagged
    [RULE]. *)
Lemma has_crule_child shape_obj :
  has_crule shape_obj = true
  <-> exists r, In r (children shape_obj) /\ tag r = "RULE".
Proof.
  rewrite has_crule_find. unfold find, findall. split.
  - intros [r Hr]. exists r.
    assert (Hin : In r (List.filter (has_tag "RULE") (children shape_obj))).
    { destruct (List.filter _ _); [discriminate |]. injection Hr as ->. left. reflexivity. }
    apply filter_In in Hin as [Hin Htag].
    split; [exact Hin |]. apply String.eqb_eq, Htag.
  - intros (r & Hin & Htag).
    assert (Hf : In r (List.filter (has_tag "RULE") (children shape_obj))).
    { apply filter_In. split; [exact Hin |]. apply String.eqb_eq, Htag. }
    destruct (List.filter _ _) as [| r0 rs]; [destruct Hf | exists r0; reflexivity].
Qed.

(** The update of [crule_dict] raises nothing. *)
Lemma crule_update_returns shapeobject (cd : gmap string string) :
  exists crules,
    (if has_crule shapeobject
     then match find "RULE" shapeobject with
          | Some crule_elem => Ok (extract_rule_details crule_elem ∪ cd)
          | None => Raise TypeError
          end
     else Ok cd) = Ok crules.
Proof.
  destruct (has_crule shapeobject) eqn:Hr; [| eauto].
  apply has_crule_find in Hr as [r ->]. eauto.
Qed.

(** Every successful iteration is one of the cases of [shape_step]. *)
Lemma shape_body_ok sysname symbol_key st idx shapeobject st' :
  shape_body sysname symbol_key st (idx, shapeobject) = Ok st' ->
  shape_step sysname symbol_key st shapeobject st'.
Proof.
  unfold shape_body.
  destruct (find_desc "SHAPE" shapeobject) as [shape |] eqn:Hshape;
    [| intros [= <-]; apply step_no_shape; [assumption | reflexivity]].
  destruct (find_path "MetaData" "ClassName" shape) as [cn |] eqn:Hcn;
    [| discriminate].
  cbn [rbind].
  destruct (extract_visuals shape) as [[[stroke thickness] fill] |] eqn:Hv;
    [| discriminate].
  cbn [rbind].
  destruct (crule_update_returns shapeobject (crule_dict st)) as [crules ->].
  cbn [rbind]. fold (visibility_of shapeobject).
  destruct (str_eq (text cn) "CRectangle") eqn:Hrect.
  { apply str_eq_true in Hrect.
    destruct (rect_fields (find "RectShape" shape)) as [[[[l r] t] b] |] eqn:Hf;
      [| discriminate].
    cbn [rbind]. intros [= <-].
    eapply step_rectangle; eauto. }
  destruct (str_eq (text cn) "CTextBox") eqn:Htxt.
  { apply str_eq_true in Htxt.
    destruct (rect_fields (find_path "Rectangle" "RectShape" shape))
      as [[[[l r] t] b] |] eqn:Hf; [| discriminate].
    cbn [rbind]. intros [= <-].
    eapply step_textbox; eauto. }
  destruct (str_eq (text cn) "CPolygon" || str_eq (text cn) "CParallelogram") eqn:Hpoly.
  { apply orb_true_iff in Hpoly. rewrite !str_eq_true in Hpoly.
    destruct (for_each point_body _ _) as [[points ext] |] eqn:Hpts; [| discriminate].
    cbn [rbind]. intros [= <-].
    eapply step_polygon; eauto. }
  apply orb_false_iff in Hpoly as [Hp1 Hp2].
  apply str_eq_false in Hrect, Htxt, Hp1, Hp2.
  intros [= <-]. eapply step_other_class; eauto.
Qed.

End Shape_body.

(** ** Visibility *)

Section Visibility.
Import Py Voc.

Lemma cut_here (r : string) : r = EmptyString +:+ r.
Proof. reflexivity. Qed.

Lemma cut_later (a b p r : string) : b = p +:+ r -> a +:+ b = (a +:+ p) +:+ r.
Proof.
  intros ->. induction a as [| c a IH]; [reflexivity |].
  change (String c (a +:+ (p +:+ r)) = String c ((a +:+ p) +:+ r)).
  rewrite IH. reflexivity.
Qed.

(** Splits a concatenation in front of its [Visibility] attribute. *)
Ltac cut_at_visibility :=
  repeat lazymatch goal with
    | |- " Visibility=" +:+ _ = _ => apply cut_here
    | |- _ +:+ _ = _ => apply cut_later
    end.

Lemma rectangle_xaml_visibility sysname symbol_key n w h l t stroke thickness fill vis :
  exists pre,
    rectangle_xaml sysname symbol_key n w h l t stroke thickness fill vis
    = pre +:+ " Visibility=" +:+ quoted vis +:+ " Canvas.ZIndex=" +:+ quoted "2" +:+ "/>".
Proof. unfold rectangle_xaml. eexists. cut_at_visibility. Qed.

Lemma textblock_xaml_visibility sysname symbol_key n l t r b vis :
  exists pre,
    textblock_xaml sysname symbol_key n l t r b vis
    = pre +:+ " Visibility=" +:+ quoted vis +:+ "/>".
Proof. unfold textblock_xaml. eexists. cut_at_visibility. Qed.

Lemma polygon_xaml_visibility sysname symbol_key n points stroke thickness fill vis :
  exists pre,
    polygon_xaml sysname symbol_key n points stroke thickness fill vis
    = pre +:+ " Visibility=" +:+ quoted vis +:+ " Canvas.ZIndex=" +:+ quoted "2" +:+ "/>".
Proof. unfold polygon_xaml. eexists. cut_at_visibility. Qed.

Lemma visibility_of_collapsed shapeobject :
  visibility_of shapeobject = "Collapsed"
  <-> exists r, In r (children shapeobject) /\ tag r = "RULE".
Proof.
  rewrite <- has_crule_child. unfold visibility_of.
  destruct (has_crule shapeobject); split; congruence.
Qed.

Lemma visibility_of_visible shapeobject :
  visibility_of shapeobject = "Visible"
  <-> ~ exists r, In r (children shapeobject) /\ tag r = "RULE".
Proof.
  rewrite <- has_crule_child. unfold visibility_of.
  destruct (has_crule shapeobject); split; congruence.
Qed.

(** C5: whatever one iteration over a shape object emits (nothing, or one
    element appended to the output) carries the visibility of that shape
    object as its [Visibility] attribute, which closes the element
    ([TextBlock]) or is followed only by the fixed [Canvas.ZIndex]
    attribute ([Rectangle], [Polygon]); that visibility is ["Collapsed"]
    exactly when a child of the shape object is tagged [RULE] and
    ["Visible"] exactly when none is. *)
Theorem visibility_follows_rule sysname symbol_key st idx shapeobject st' :
  shape_body sysname symbol_key st (idx, shapeobject) = Ok st' ->
  exists vis,
    (vis = "Collapsed" <-> exists r, In r (children shapeobject) /\ tag r = "RULE")
    /\ (vis = "Visible" <-> ~ exists r, In r (children shapeobject) /\ tag r = "RULE")
    /\ (canvas_elements st' = canvas_elements st
        \/ exists pre post,
             canvas_elements st' = canvas_elements st ++
               [pre +:+ " Visibility=" +:+ quoted vis +:+ post]
             /\ (post = " Canvas.ZIndex=" +:+ quoted "2" +:+ "/>" \/ post = "/>")).
Proof.
  intros Hbody. exists (visibility_of shapeobject).
  split; [apply visibility_of_collapsed |].
  split; [apply visibility_of_visible |].
  destruct (shape_body_ok _ _ _ _ _ _ Hbody)
    as [_ -> | shape cn stroke thickness fill l r t b _ _ _ _ _ _ He _ _
        | shape cn l r t b _ _ _ _ _ He _ _
        | shape cn stroke thickness fill points ext _ _ _ _ _ _ He _ _
        | shape cn _ _ _ _ _ _ _ He _ _].
  - left. reflexivity.
  - right. rewrite He.
    destruct (rectangle_xaml_visibility sysname symbol_key (counter st + 1)
                (r - l) (b - t) l t stroke thickness fill (visibility_of shapeobject))
      as [pre ->].
    eexists; eexists; split; [reflexivity | left; reflexivity].
  - right. rewrite He.
    destruct (textblock_xaml_visibility sysname symbol_key (counter st + 1)
                l t r b (visibility_of shapeobject)) as [pre ->].
    eexists; eexists; split; [reflexivity | right; reflexivity].
  - right. rewrite He.
    destruct (polygon_xaml_visibility sysname symbol_key (counter st + 1)
                (join " " points) stroke thickness fill (visibility_of shapeobject))
      as [pre ->].
    eexists; eexists; split; [reflexivity | left; reflexivity].
  - left. exact He.
Qed.

End Visibility.

Lemma visibility_follows_rule_witness :
  exists vis,
    (vis = "Collapsed"
     <-> exists r, In r (children Samples.shapeobject_rule) /\ tag r = "RULE")
    /\ (vis = "Visible"
        <-> ~ exists r, In r (children Samples.shapeobject_rule) /\ tag r = "RULE")
    /\ (canvas_elements Samples.state_after_rule = canvas_elements Samples.state_before
        \/ exists pre post,
             canvas_elements Samples.state_after_rule
             = canvas_elements Samples.state_before ++
                 [pre +:+ " Visibility=" +:+ quoted vis +:+ post]
             /\ (post = " Canvas.ZIndex=" +:+ quoted "2" +:+ "/>" \/ post = "/>")).
Proof.
  apply (visibility_follows_rule "Foo" "42" Samples.state_before 0
           Samples.shapeobject_rule Samples.state_after_rule).
  vm_compute. reflexivity.
Defined.

(** ** Skipped shapes and empty polygons *)

Section Shape_cases.
Import Py Voc.

(** A shape object without [SHAPE] descendant is passed over. *)
Lemma shape_body_no_shape sysname symbol_key st idx shapeobject :
  find_desc "SHAPE" shapeobject = None ->
  shape_body sysname symbol_key st (idx, shapeobject) = Ok st.
Proof. intros H. unfold shape_body. rewrite H. reflexivity. Qed.

(** A shape whose class name (or absent class-name text) is none of the
    four handled ones emits nothing and leaves counter and extent alone. *)
Lemma shape_body_other_class sysname symbol_key st idx shapeobject shape cn :
  find_desc "SHAPE" shapeobject = Some shape ->
  find_path "MetaData" "ClassName" shape = Some cn ->
  text cn <> Some "CRectangle" ->
  text cn <> Some "CTextBox" ->
  text cn <> Some "CPolygon" ->
  text cn <> Some "CParallelogram" ->
  exists st',
    shape_body sysname symbol_key st (idx, shapeobject) = Ok st'
    /\ canvas_elements st' = canvas_elements st
    /\ counter st' = counter st
    /\ extent st' = extent st.
Proof.
  intros Hshape Hcn H1 H2 H3 H4. unfold shape_body. rewrite Hshape, Hcn.
  cbn [rbind].
  destruct (extract_visuals_returns shape) as [[[stroke thickness] fill] ->].
  cbn [rbind].
  destruct (crule_update_returns shapeobject (crule_dict st)) as [crules ->].
  cbn [rbind].
  apply str_eq_false in H1, H2, H3, H4. rewrite H1, H2, H3, H4.
  cbn [orb]. eexists. repeat split; reflexivity.
Qed.

(** A shape without [MetaData/ClassName] element: reading [.text] of the
    failed lookup raises. *)
Lemma shape_body_no_classname sysname symbol_key st idx shapeobject shape :
  find_desc "SHAPE" shapeobject = Some shape ->
  find_path "MetaData" "ClassName" shape = None ->
  shape_body sysname symbol_key st (idx, shapeobject) = Raise AttributeError.
Proof.
  intros Hshape Hcn. unfold shape_body. rewrite Hshape, Hcn. reflexivity.
Qed.


End Shape_cases.


(** The element emitted for the empty polygon of the samples. *)
Example empty_polygon_element :
  parse_xml Samples.no_globals Samples.doc_empty_polygon
  = Ok ["<Polygon Name=" +:+ quoted "Foo-poly-42-1" +:+ " Points=" +:+ quoted EmptyString
        +:+ " Stroke=" +:+ quoted "#808080" +:+ " StrokeThickness=" +:+ quoted "1"
        +:+ " Fill=" +:+ quoted "#808080" +:+ " Tag=" +:+ quoted "17"
        +:+ " Visibility=" +:+ quoted "Visible"
        +:+ " Canvas.ZIndex=" +:+ quoted "2" +:+ "/>"].
Proof. vm_compute. reflexivity. Qed.

(** ** The whole pass *)

Section Loops.
Context {S A : Type} (body : S -> A -> result S).

(** A property kept by every iteration is kept by the loop. *)
Lemma for_each_invariant (P : S -> Prop) xs :
  (forall s x s', body s x = Ok s' -> P s -> P s') ->
  forall s s', for_each body xs s = Ok s' -> P s -> P s'.
Proof.
  intros Hstep. induction xs as [| x xs IH]; intros s s' Hrun Hs.
  - injection Hrun as <-. exact Hs.
  - cbn [for_each] in Hrun. destruct (body s x) as [s1 |] eqn:Hx; [| discriminate].
    cbn [rbind] in Hrun. eapply IH; [exact Hrun |]. eapply Hstep; eauto.
Qed.


End Loops.

Section Pass.
Import Py Voc.


(** *** The extent only widens *)





(** *** Emitted elements stay *)


(** *** One view object *)






End Pass.

(** ** The validator *)

Section Validator.
Import Py Voc.

(** A loop that only appends is a [flat_map]. *)
Lemma fold_left_appends {A B} (f : list B -> A -> list B) (g : A -> list B) xs :
  (forall acc x, f acc x = acc ++ g x) ->
  forall acc, fold_left f xs acc = acc ++ flat_map g xs.
Proof.
  intros Hf. induction xs as [| x xs IH]; intros acc; cbn.
  - rewrite app_nil_r. reflexivity.
  - rewrite IH, Hf, <- app_assoc. reflexivity.
Qed.

Lemma check_attr_appends xaml_attributes elem acc item :
  check_attr xaml_attributes elem acc item
  = acc ++ attr_issues xaml_attributes elem item.
Proof.
  destruct item as [attr value]. unfold check_attr, attr_issues. cbn [fst snd].
  destruct (bool_decide _); cbv iota; [reflexivity | rewrite app_nil_r; reflexivity].
Qed.

Lemma check_elem_appends xaml_tags xaml_attributes acc elem :
  check_elem xaml_tags xaml_attributes acc elem
  = acc ++ elem_issues xaml_tags xaml_attributes elem.
Proof.
  unfold check_elem, elem_issues.
  destruct (String.eqb _ _); cbv iota; [rewrite app_nil_r; reflexivity |].
  rewrite (fold_left_appends _ _ _ (check_attr_appends xaml_attributes elem)).
  destruct (bool_decide _); cbv iota zeta; [rewrite <- app_assoc |]; reflexivity.
Qed.

(** The mismatch list, element by element. *)
Lemma mismatches_flat_map root xaml_root :
  mismatches root xaml_root
  = flat_map (elem_issues (gather_xaml xaml_root).1 (gather_xaml xaml_root).2)
             (iter root).
Proof.
  unfold mismatches. destruct (gather_xaml xaml_root) as [xaml_tags xaml_attributes].
  rewrite (fold_left_appends _ _ _ (check_elem_appends xaml_tags xaml_attributes)).
  reflexivity.
Qed.

Lemma gather_values v (vals : list string) (attrs : gset string) :
  v ∈ fold_left (fun attrs attr_val => {[attr_val]} ∪ attrs) vals attrs
  <-> v ∈ attrs \/ In v vals.
Proof.
  revert attrs. induction vals as [| w vals IH]; intros attrs; cbn.
  - tauto.
  - rewrite IH, elem_of_union, elem_of_singleton. split; [intros [[-> | H] | H] | intros [H | [-> | H]]]; auto.
Qed.

Lemma gather_elems es (acc : gset string * gset string) :
  (forall t, t ∈ (fold_left gather_elem es acc).1
             <-> t ∈ acc.1 \/ exists e, In e es /\ tag e = t)
  /\ (forall v, v ∈ (fold_left gather_elem es acc).2
                <-> v ∈ acc.2 \/ exists e k, In e es /\ In (k, v) (attrib e)).
Proof.
  revert acc. induction es as [| x es IH]; intros [tags attrs]; cbn [fold_left].
  - cbn [fst snd]. split; intros x; (split; [intros H; left; exact H |]).
    + intros [H | (e & [] & _)]. exact H.
    + intros [H | (e & k & [] & _)]. exact H.
  - destruct (IH (gather_elem (tags, attrs) x)) as [IHt IHv].
    split; [intros t; rewrite IHt | intros v; rewrite IHv]; cbn [gather_elem fst snd].
    + rewrite elem_of_union, elem_of_singleton. split.
      * intros [[-> | H] | (e & Hin & Ht)]; [right; exists x | left | right; exists e];
          cbn; auto.
      * intros [H | (e & [<- | Hin] & Ht)]; [auto | auto | right; exists e; auto].
    + rewrite gather_values. split.
      * intros [[H | H] | (e & k & Hin & Hk)]; [left; exact H | | right; exists e, k; cbn; auto].
        apply in_map_iff in H as ([k v'] & Hv & Hin). cbn in Hv. subst v'.
        right. exists x, k. cbn. auto.
      * intros [H | (e & k & [<- | Hin] & Hk)]; [auto | | right; exists e, k; auto].
        left. right. apply in_map_iff. exists (k, v). auto.
Qed.

Lemma gather_xaml_tags xaml_root t :
  t ∈ (gather_xaml xaml_root).1 <-> tag_in t xaml_root.
Proof.
  unfold gather_xaml, tag_in. rewrite (proj1 (gather_elems _ _)). cbn.
  rewrite elem_of_empty. tauto.
Qed.

Lemma gather_xaml_values xaml_root v :
  v ∈ (gather_xaml xaml_root).2 <-> value_in v xaml_root.
Proof.
  unfold gather_xaml, value_in. rewrite (proj2 (gather_elems _ _)). cbn.
  rewrite elem_of_empty. tauto.
Qed.

Lemma flat_map_nil {A B} (f : A -> list B) xs :
  flat_map f xs = [] <-> forall x, In x xs -> f x = [].
Proof.
  induction xs as [| y xs IH]; cbn.
  - tauto.
  - split.
    + intros H x [<- | Hin]; apply app_eq_nil in H as [Hy Hxs]; [exact Hy |].
      apply IH; assumption.
    + intros H. rewrite (H y (or_introl eq_refl)). cbn. apply IH. auto.
Qed.

(** No mismatch is recorded exactly when every checked source element has
    its tag and all its attribute values in the output tree. *)
Lemma mismatches_nil root xaml_root :
  mismatches root xaml_root = []
  <-> forall e, checked root e ->
        tag_in (tag e) xaml_root
        /\ forall k v, In (k, v) (attrib e) -> value_in v xaml_root.
Proof.
  rewrite mismatches_flat_map, flat_map_nil. unfold checked. split.
  - intros H e [Hin Hroot]. specialize (H e Hin). unfold elem_issues in H.
    destruct (String.eqb_spec (lower (tag e)) "root") as [Heq | _]; [contradiction |].
    apply app_eq_nil in H as [Htag Hattrs]. split.
    + apply gather_xaml_tags.
      destruct (bool_decide (tag e ∉ _)) eqn:Hd; [discriminate |].
      apply bool_decide_eq_false in Hd. apply dec_stable in Hd. exact Hd.
    + intros k v Hk. apply gather_xaml_values.
      rewrite flat_map_nil in Hattrs. specialize (Hattrs (k, v) Hk).
      unfold attr_issues in Hattrs. cbn [snd] in Hattrs.
      destruct (bool_decide (v ∉ _)) eqn:Hd; [discriminate |].
      apply bool_decide_eq_false in Hd. apply dec_stable in Hd. exact Hd.
  - intros H e Hin. unfold elem_issues.
    destruct (String.eqb_spec (lower (tag e)) "root") as [Heq | Hne]; [reflexivity |].
    destruct (H e (conj Hin Hne)) as [Htag Hvals].
    apply gather_xaml_tags in Htag.
    rewrite bool_decide_eq_false_2 by (intros Hn; exact (Hn Htag)).
    cbn. apply flat_map_nil. intros [k v] Hk. unfold attr_issues. cbn [snd].
    pose proof (Hvals k v Hk) as Hv. apply gather_xaml_values in Hv.
    rewrite bool_decide_eq_false_2 by (intros Hn; exact (Hn Hv)). reflexivity.
Qed.

(** C7, as the code has it: the validator reports no mismatch when the
    output tree holds the tag and every attribute value of every source
    element other than those tagged [root] (in any capitalisation); and it
    reports at least one mismatch, the missing-value line among them, when
    an attribute value of a source element not tagged [root] is absent
    from the attribute values of the output tree. *)
Theorem validate_conversion_report root xaml_root :
  ((forall e, checked root e ->
              tag_in (tag e) xaml_root
              /\ forall k v, In (k, v) (attrib e) -> value_in v xaml_root) ->
   validate_conversion root xaml_root = Validation_successful)
  /\ (forall e k v,
         checked root e -> In (k, v) (attrib e) -> ~ value_in v xaml_root ->
         exists issues,
           validate_conversion root xaml_root = Validation_failed issues
           /\ issues <> []
           /\ In (tag e +:+ " - Missing value: " +:+ k +:+ "=" +:+ v) issues).
Proof.
  unfold validate_conversion. split.
  - intros H. apply mismatches_nil in H. rewrite H. reflexivity.
  - intros e k v [Hin Hroot] Hk Hv.
    assert (Hissue : In (tag e +:+ " - Missing value: " +:+ k +:+ "=" +:+ v)
                        (mismatches root xaml_root)).
    { rewrite mismatches_flat_map. apply in_flat_map. exists e. split; [exact Hin |].
      unfold elem_issues.
      destruct (String.eqb_spec (lower (tag e)) "root") as [Heq | _]; [contradiction |].
      apply in_or_app. right. apply in_flat_map. exists (k, v). split; [exact Hk |].
      unfold attr_issues. cbn [fst snd].
      rewrite bool_decide_eq_true_2; [left; reflexivity |].
      intros Hn. apply Hv, gather_xaml_values, Hn. }
    exists (mismatches root xaml_root).
    assert (Hne : mismatches root xaml_root <> [])
      by (intros Heq; rewrite Heq in Hissue; destruct Hissue).
    rewrite bool_decide_eq_true_2 by exact Hne. auto.
Qed.

End Validator.

(** ** Sample runs *)


Lemma validate_conversion_report_witness :
  validate_conversion Samples.source_tree Samples.output_tree = Validation_successful
  /\ exists issues,
       validate_conversion Samples.source_tree Samples.output_renamed
       = Validation_failed issues
       /\ issues <> []
       /\ In ("Rectangle" +:+ " - Missing value: " +:+ "Name" +:+ "=" +:+ "r1") issues.
Proof.
  split.
  - apply (proj1 (validate_conversion_report Samples.source_tree Samples.output_tree)).
    intros e [Hin Hroot]. cbn in Hin. destruct Hin as [<- | [<- | []]].
    + exfalso. apply Hroot. reflexivity.
    + split.
      * exists (Elem "Rectangle" [("Name", "r1"); ("Width", "10")] None []).
        split; [right; left; reflexivity | reflexivity].
      * intros k v [[= <- <-] | []].
        exists (Elem "Rectangle" [("Name", "r1"); ("Width", "10")] None []), "Name".
        split; [right; left; reflexivity | left; reflexivity].
  - apply (proj2 (validate_conversion_report Samples.source_tree Samples.output_renamed)
             Samples.source_rectangle "Name" "r1").
    + split; [right; left; reflexivity | vm_compute; discriminate].
    + left. reflexivity.
    + intros (x & k & Hin & Hk). cbn in Hin.
      destruct Hin as [<- | [<- | []]]; cbn in Hk.
      * destruct Hk.
      * destruct Hk as [[=] | [[=] | []]].
Defined.

(** The second half of C7 as worded fails when the absent value sits on an
    element tagged [root]: the value ["7"] of the source is nowhere in the
    output, and the validator reports success. *)
Lemma validate_conversion_root_counterexample :
  In ("version", "7") (attrib (Elem "root" [("version", "7")] None []))
  /\ ~ Voc.value_in "7" Samples.output_tree
  /\ validate_conversion (Elem "root" [("version", "7")] None []) Samples.output_tree
     = Validation_successful.
Proof.
  split; [left; reflexivity |].
  split; [| vm_compute; reflexivity].
  intros (x & k & Hin & Hk). cbn in Hin.
  destruct Hin as [<- | [<- | []]]; cbn in Hk.
  - destruct Hk.
  - destruct Hk as [[=] | [[=] | []]].
Qed.


(** C1 at two documents. For the one-rectangle document the pass computes
    the canvas size 10 by 20 and returns the element list without it; for
    a document without view object it returns the empty list and the
    canvas size is never bound, the default 800 by 600 included. *)
Theorem parse_xml_returns_elements_only :
  parse_xml Samples.no_globals Samples.doc_rect
  = Ok [rectangle_xaml "Foo" "42" 1 10 20 0 0 "#808080" "1" "#808080" "Visible"]
  /\ (exists st, parse_xml_run Samples.no_globals Samples.doc_rect = Ok st
                 /\ canvas_size st = Some (10, 20))
  /\ parse_xml Samples.no_globals Samples.doc_empty = Ok []
  /\ (exists st, parse_xml_run Samples.no_globals Samples.doc_empty = Ok st
                 /\ canvas_size st = None).
Proof.
  split; [vm_compute; reflexivity |].
  split; [eexists; split; [vm_compute; reflexivity | reflexivity] |].
  split; [vm_compute; reflexivity |].
  eexists; split; [vm_compute; reflexivity | reflexivity].
Qed.

(** C2 at the failing document: a shape without [MetaData/ClassName]
    makes the whole pass raise, so the rectangle after it is never
    reached; shapes of an unknown class, shape objects without [SHAPE] and
    class-name elements without text are passed over and the rectangle
    after them is emitted. *)
Theorem parse_xml_missing_classname_raises :
  parse_xml Samples.no_globals Samples.doc_no_classname = Raise AttributeError
  /\ parse_xml Samples.no_globals Samples.doc_skips
     = Ok [rectangle_xaml "Foo" "42" 1 10 20 0 0 "#808080" "1" "#808080" "Visible"].
Proof. split; vm_compute; reflexivity. Qed.

(** * Further properties *)

(** ** The colour normaliser: no masking, and the width of the output *)

Section Color_width.
Import Py Voc PyFacts.

Lemma length_append (a b : string) :
  String.length (a +:+ b) = (String.length a + String.length b)%nat.
Proof.
  induction a as [| c a IH]; [reflexivity |].
  change (Datatypes.S (String.length (a +:+ b))
          = Datatypes.S (String.length a + String.length b)).
  rewrite IH. reflexivity.
Qed.

Lemma length_zeros k : String.length (zeros k) = k.
Proof. induction k as [| k IH]; cbn; [reflexivity | rewrite IH; reflexivity]. Qed.

Lemma length_string_of_list l : String.length (string_of_list_ascii l) = length l.
Proof. induction l as [| c l IH]; cbn; [reflexivity | rewrite IH; reflexivity]. Qed.

Lemma length_digit_string base n :
  String.length (digit_string base n) = length (digits base n).
Proof. unfold digit_string. rewrite length_string_of_list, length_map. reflexivity. Qed.

(** A number below [base ^ k] has at most [k] digits. *)
Lemma digits_le_short base fuel :
  2 <= base ->
  forall (k : nat) n, (1 <= k)%nat -> 0 <= n < base ^ Z.of_nat k ->
                      (length (digits_le base fuel n) <= k)%nat.
Proof.
  intros Hb. induction fuel as [| fuel IH]; intros k n Hk Hn; cbn [digits_le length].
  - lia.
  - destruct (Z.eqb_spec (n / base) 0) as [Hz | Hnz]; cbn [length]; [lia |].
    destruct k as [| k]; [lia |].
    rewrite Nat2Z.inj_succ, Z.pow_succ_r in Hn by lia.
    assert (Hq : 0 <= n / base < base ^ Z.of_nat k).
    { split; [apply Z.div_pos; lia |]. apply Z.div_lt_upper_bound; lia. }
    destruct k as [| k].
    + cbn in Hq. lia.
    + specialize (IH (Datatypes.S k) (n / base) ltac:(lia) Hq). lia.
Qed.

(** A number from [base ^ k] on has more than [k] digits. *)
Lemma digits_le_long base fuel :
  2 <= base ->
  forall (k : nat) n, base ^ Z.of_nat k <= n < 2 ^ Z.of_nat fuel ->
                      (k < length (digits_le base fuel n))%nat.
Proof.
  intros Hb. induction fuel as [| fuel IH]; intros k n Hn.
  - assert (0 < base ^ Z.of_nat k) by (apply Z.pow_pos_nonneg; lia).
    cbn in Hn. lia.
  - cbn [digits_le length]. destruct k as [| k]; [lia |].
    rewrite !Nat2Z.inj_succ, !Z.pow_succ_r in Hn by lia.
    assert (Hpos : 0 < base ^ Z.of_nat k) by (apply Z.pow_pos_nonneg; lia).
    assert (Hq : base ^ Z.of_nat k <= n / base < 2 ^ Z.of_nat fuel).
    { split.
      - apply Z.div_le_lower_bound; lia.
      - apply Z.div_lt_upper_bound; [lia |].
        assert (0 < 2 ^ Z.of_nat fuel) by (apply Z.pow_pos_nonneg; lia). nia. }
    destruct (Z.eqb_spec (n / base) 0) as [Hz | Hnz]; [lia |].
    specialize (IH k (n / base) Hq). lia.
Qed.

Lemma enough_fuel n : 0 <= n -> n < 2 ^ Z.of_nat (Datatypes.S (Z.to_nat (Z.log2 n))).
Proof.
  intros Hn. destruct (Z.eq_dec n 0) as [-> | Hnz]; [cbn; lia |].
  rewrite Nat2Z.inj_succ, Z2Nat.id by apply Z.log2_nonneg.
  apply Z.log2_spec. lia.
Qed.

Lemma length_format_06X_small n :
  0 <= n < 16 ^ 6 -> String.length (format_06X n) = 6%nat.
Proof.
  intros Hn. unfold format_06X. destruct (Z.ltb_spec n 0); [lia |].
  change (EmptyString +:+ ?x) with x.
  rewrite length_append, length_zeros, length_digit_string, Z.abs_eq by lia.
  assert (length (digits 16 n) <= 6)%nat.
  { unfold digits. rewrite length_rev. apply digits_le_short; [lia | lia | exact Hn]. }
  cbn [String.length]. lia.
Qed.

Lemma length_format_06X_large n :
  16 ^ 6 <= n -> (6 < String.length (format_06X n))%nat.
Proof.
  intros Hn. unfold format_06X. destruct (Z.ltb_spec n 0); [lia |].
  change (EmptyString +:+ ?x) with x.
  rewrite length_append, length_zeros, length_digit_string, Z.abs_eq by lia.
  assert (6 < length (digits 16 n))%nat; [| lia].
  unfold digits. rewrite length_rev. apply digits_le_long; [lia |].
  split; [exact Hn | apply enough_fuel; lia].
Qed.

(** Integer literals that denote different integers get different colour
    strings: nothing is masked or clamped. *)
Theorem decimal_to_hex_separates s1 s2 n1 n2 :
  int_of_string s1 = Some n1 ->
  int_of_string s2 = Some n2 ->
  decimal_to_hex (Some s1) = decimal_to_hex (Some s2) ->
  n1 = n2.
Proof.
  intros H1 H2. rewrite (decimal_to_hex_int s1 n1 H1), (decimal_to_hex_int s2 n2 H2).
  change ("#" +:+ ?x) with (String "#"%char x). intros [= Heq].
  apply (f_equal (int_signed 16)) in Heq.
  rewrite !int_signed_format_06X in Heq. congruence.
Qed.

(** A literal between 0 and 16777215 gives [#] and exactly six digits; a
    larger one gives more than six. *)
Theorem decimal_to_hex_width s n :
  int_of_string s = Some n ->
  exists h,
    decimal_to_hex (Some s) = Ok h
    /\ (0 <= n <= 16777215 -> String.length h = 7%nat)
    /\ (16777215 < n -> (7 < String.length h)%nat).
Proof.
  intros Hs. exists ("#" +:+ format_06X n).
  split; [apply decimal_to_hex_int, Hs |].
  change ("#" +:+ ?x) with (String "#"%char x). cbn [String.length].
  split; intros Hn.
  - rewrite length_format_06X_small; [reflexivity |]. change (16 ^ 6) with 16777216. lia.
  - pose proof (length_format_06X_large n) as Hl.
    change (16 ^ 6) with 16777216 in Hl. specialize (Hl ltac:(lia)). lia.
Qed.

End Color_width.

Lemma decimal_to_hex_separates_witness : 255 = 255.
Proof.
  apply (decimal_to_hex_separates "255" " +2_55 " 255 255); vm_compute; reflexivity.
Defined.

Lemma decimal_to_hex_width_witness :
  exists h,
    decimal_to_hex (Some "16777216") = Ok h
    /\ (0 <= 16777216 <= 16777215 -> String.length h = 7%nat)
    /\ (16777215 < 16777216 -> (7 < String.length h)%nat).
Proof.
  apply (decimal_to_hex_width "16777216" 16777216). vm_compute. reflexivity.
Defined.

(** ** The visual property resolver: defaults and fallbacks *)

Section Visual_defaults.
Import Py.

Ltac hex_results :=
  repeat match goal with
    | |- context [decimal_to_hex ?x] =>
        let body := fresh "body" in
        let Hb := fresh "Hb" in
        destruct (decimal_to_hex_returns x) as [body Hb];
        rewrite Hb; clear Hb; cbn [rbind otruthy truthy negb]
    end.

Lemma or_else_nonempty a b : b <> EmptyString -> or_else a b <> EmptyString.
Proof.
  intros Hb. unfold or_else. destruct a as [[| c s] |]; cbn; congruence.
Qed.

(** [extract_visuals] returns for every shape, and none of the three
    strings it returns is empty. *)
Theorem extract_visuals_nonempty shape :
  exists stroke thickness fill,
    extract_visuals shape = Ok (stroke, thickness, fill)
    /\ stroke <> EmptyString /\ thickness <> EmptyString /\ fill <> EmptyString.
Proof.
  unfold extract_visuals.
  destruct (find "Pen" shape), (find "FillColor" shape), (find "ShapeStyle" shape);
    hex_results;
    (do 3 eexists; split; [reflexivity |];
     repeat split; apply or_else_nonempty; discriminate).
Qed.

(** Without a [Pen] child the stroke comes from [ShapeStyle/LineColor], and
    without a [FillColor] child the fill comes from [ShapeStyle/FillColor];
    without [ShapeStyle] either, each is the grey ["#808080"]. *)
Theorem extract_visuals_fallback shape :
  (forall shape_style,
      find "Pen" shape = None -> find "ShapeStyle" shape = Some shape_style ->
      exists h thickness fill,
        decimal_to_hex (findtext "LineColor" shape_style) = Ok h
        /\ extract_visuals shape = Ok (h, thickness, fill))
  /\ (forall shape_style,
         find "FillColor" shape = None -> find "ShapeStyle" shape = Some shape_style ->
         exists stroke thickness h,
           decimal_to_hex (findtext "FillColor" shape_style) = Ok h
           /\ extract_visuals shape = Ok (stroke, thickness, h))
  /\ (find "Pen" shape = None -> find "ShapeStyle" shape = None ->
      exists thickness fill, extract_visuals shape = Ok ("#808080", thickness, fill))
  /\ (find "FillColor" shape = None -> find "ShapeStyle" shape = None ->
      exists stroke thickness, extract_visuals shape = Ok (stroke, thickness, "#808080")).
Proof.
  split; [| split; [| split]].
  - intros ss Hpen Hss. unfold extract_visuals. rewrite Hpen, Hss. cbn [rbind].
    destruct (decimal_to_hex_returns (findtext "LineColor" ss)) as [body Hb].
    destruct (find "FillColor" shape);
      hex_results; rewrite ?Hb; cbn [rbind otruthy truthy negb]; hex_results;
      cbn [or_else truthy]; eauto.
  - intros ss Hfc Hss. unfold extract_visuals. rewrite Hfc, Hss. cbn [rbind].
    destruct (decimal_to_hex_returns (findtext "FillColor" ss)) as [body Hb].
    destruct (find "Pen" shape);
      hex_results; rewrite ?Hb; cbn [rbind otruthy truthy negb]; hex_results;
      cbn [or_else truthy]; eauto.
  - intros Hpen Hss. unfold extract_visuals. rewrite Hpen, Hss. cbn [rbind].
    destruct (find "FillColor" shape); hex_results; cbn [or_else truthy]; eauto.
  - intros Hfc Hss. unfold extract_visuals. rewrite Hfc, Hss. cbn [rbind].
    destruct (find "Pen" shape); hex_results; cbn [or_else truthy]; eauto.
Qed.

(** The thickness is the text of [Style/StrokeThickness] as it stands,
    neither stripped nor read as a number, when that text is not empty;
    it is ["1"] when the shape has no [Style] child, or that child has no
    [StrokeThickness] child, or its text is empty. *)
Theorem extract_visuals_thickness shape :
  (forall style t,
      find "Style" shape = Some style ->
      findtext "StrokeThickness" style = Some t -> t <> EmptyString ->
      exists stroke fill, extract_visuals shape = Ok (stroke, t, fill))
  /\ (find "Style" shape = None
      \/ (exists style, find "Style" shape = Some style
                        /\ (findtext "StrokeThickness" style = None
                            \/ findtext "StrokeThickness" style = Some EmptyString)) ->
      exists stroke fill, extract_visuals shape = Ok (stroke, "1", fill)).
Proof.
  split.
  - intros style t Hstyle Ht Hne. unfold extract_visuals. rewrite Hstyle, Ht.
    destruct (find "Pen" shape), (find "FillColor" shape), (find "ShapeStyle" shape);
      hex_results; cbn [or_else]; destruct t; try congruence; cbn [truthy]; eauto.
  - intros Hcase. unfold extract_visuals.
    assert (Hth : match find "Style" shape with
                  | Some style => findtext "StrokeThickness" style
                  | None => None
                  end = None
                  \/ match find "Style" shape with
                     | Some style => findtext "StrokeThickness" style
                     | None => None
                     end = Some EmptyString).
    { destruct Hcase as [-> | (style & -> & [-> | ->])]; auto. }
    destruct (find "Pen" shape), (find "FillColor" shape), (find "ShapeStyle" shape);
      hex_results; destruct Hth as [-> | ->]; cbn [or_else truthy]; eauto.
Qed.

End Visual_defaults.

Lemma extract_visuals_fallback_witness :
  exists h thickness fill,
    decimal_to_hex (findtext "LineColor" Samples.style_red) = Ok h
    /\ extract_visuals (Samples.node "SHAPE" [Samples.style_red]) = Ok (h, thickness, fill).
Proof.
  apply (proj1 (extract_visuals_fallback (Samples.node "SHAPE" [Samples.style_red]))
           Samples.style_red); reflexivity.
Defined.

Lemma extract_visuals_thickness_witness :
  (exists stroke fill,
      extract_visuals (Samples.node "SHAPE"
                         [Samples.node "Style" [Samples.leaf "StrokeThickness" " 2px "]])
      = Ok (stroke, " 2px ", fill))
  /\ (exists stroke fill,
         extract_visuals (Samples.node "SHAPE" [Samples.node "Style" []])
         = Ok (stroke, "1", fill)).
Proof.
  split.
  - apply (proj1 (extract_visuals_thickness _)
             (Samples.node "Style" [Samples.leaf "StrokeThickness" " 2px "]) " 2px ");
      [reflexivity | reflexivity | discriminate].
  - apply (proj2 (extract_visuals_thickness _)).
    right. exists (Samples.node "Style" []). split; [reflexivity | left; reflexivity].
Defined.

(** ** The flattened dictionaries: [extract_rule_details] and
    [extract_children_text] *)

Section Dictionaries.
Import Py.

Lemma strip_truthy t : truthy (strip t) = true -> truthy t = true.
Proof. destruct t; [discriminate | reflexivity]. Qed.

Lemma truthy_nonempty s : truthy s = true <-> s <> EmptyString.
Proof. destruct s; cbn; split; congruence. Qed.

(** The text an element contributes: its text stripped, when that is not
    empty. *)
Lemma stripped_text_spec e v :
  stripped_text e = Some v
  <-> exists t, text e = Some t /\ v = strip t /\ v <> EmptyString.
Proof.
  unfold stripped_text. destruct (text e) as [t |].
  - destruct (truthy (strip t)) eqn:Hs.
    + rewrite (strip_truthy t Hs). cbn [andb]. split.
      * intros [= <-]. exists t. repeat split. apply truthy_nonempty, Hs.
      * intros (t' & [= <-] & -> & _). reflexivity.
    + rewrite andb_false_r. split; [discriminate |].
      intros (t' & [= <-] & -> & Hne). apply truthy_nonempty in Hne. congruence.
  - split; [discriminate | intros (t' & [=] & _)].
Qed.

(** The loop body of [extract_rule_details], and the one [extract_children_text]
    runs over the sub-elements of a child. *)
Let rule_step (d : gmap string string) (child : Element) : gmap string string :=
  match stripped_text child with
  | Some t => <[tag child := t]> d
  | None => d
  end.

Let sub_step (child : Element) (data : gmap string string) (subchild : Element)
  : gmap string string :=
  match stripped_text subchild with
  | Some t => <[tag child +:+ "." +:+ tag subchild := t]> data
  | None => data
  end.

Let child_step (data : gmap string string) (child : Element) : gmap string string :=
  if bool_decide (children child <> []) then
    fold_left (sub_step child) (children child) data
  else
    match stripped_text child with
    | Some t => <[tag child := t]> data
    | None => data
    end.

Lemma rule_fold_sound cs (d : gmap string string) k v :
  fold_left rule_step cs d !! k = Some v ->
  d !! k = Some v
  \/ exists child, In child cs /\ tag child = k /\ stripped_text child = Some v.
Proof.
  revert d. induction cs as [| c cs IH]; intros d H; cbn [fold_left] in H.
  - left. exact H.
  - destruct (IH _ H) as [Hd | (child & Hin & Hk & Hv)].
    + unfold rule_step in Hd. destruct (stripped_text c) as [t |] eqn:Ht.
      * destruct (decide (tag c = k)) as [Heq | Hne].
        -- subst k. rewrite lookup_insert_eq in Hd. injection Hd as ->.
           right. exists c. split; [left; reflexivity | auto].
        -- rewrite lookup_insert_ne in Hd by exact Hne. left. exact Hd.
      * left. exact Hd.
    + right. exists child. split; [right; exact Hin | auto].
Qed.

Lemma rule_fold_keeps cs (d : gmap string string) k :
  is_Some (d !! k) -> is_Some (fold_left rule_step cs d !! k).
Proof.
  revert d. induction cs as [| c cs IH]; intros d H; cbn [fold_left]; [exact H |].
  apply IH. unfold rule_step. destruct (stripped_text c) as [t |]; [| exact H].
  destruct (decide (tag c = k)) as [<- | Hne].
  - rewrite lookup_insert_eq. eauto.
  - rewrite lookup_insert_ne by exact Hne. exact H.
Qed.

Lemma rule_fold_complete cs (d : gmap string string) child :
  In child cs -> is_Some (stripped_text child) ->
  is_Some (fold_left rule_step cs d !! tag child).
Proof.
  revert d. induction cs as [| c cs IH]; intros d Hin [t Ht]; [destruct Hin |].
  cbn [fold_left]. destruct Hin as [-> | Hin].
  - apply rule_fold_keeps. unfold rule_step. rewrite Ht, lookup_insert_eq. eauto.
  - apply IH; eauto.
Qed.

(** The rule dictionary holds a key exactly when some child of the rule
    element carries that tag and a text that is not blank; the value is
    the stripped text of such a child and is never empty; when several
    children share the tag, the last one in document order is the one
    kept. *)
Theorem extract_rule_details_lookup rule_elem k :
  (forall v,
      extract_rule_details rule_elem !! k = Some v ->
      v <> EmptyString
      /\ exists child t,
           In child (children rule_elem) /\ tag child = k
           /\ text child = Some t /\ v = strip t)
  /\ ((exists child t,
          In child (children rule_elem) /\ tag child = k
          /\ text child = Some t /\ strip t <> EmptyString) ->
      is_Some (extract_rule_details rule_elem !! k))
  /\ (forall before child after t,
         children rule_elem = before ++ child :: after ->
         tag child = k -> text child = Some t -> strip t <> EmptyString ->
         (forall later, In later after -> tag later = k -> stripped_text later = None) ->
         extract_rule_details rule_elem !! k = Some (strip t)).
Proof.
  change (extract_rule_details rule_elem) with (fold_left rule_step (children rule_elem) ∅).
  split; [| split].
  - intros v Hv. apply rule_fold_sound in Hv as [Hd | (child & Hin & Hk & Hs)].
    + rewrite lookup_empty in Hd. discriminate.
    + apply stripped_text_spec in Hs as (t & Ht & -> & Hne).
      split; [exact Hne |]. exists child, t. auto.
  - intros (child & t & Hin & <- & Ht & Hne).
    apply rule_fold_complete; [exact Hin |].
    exists (strip t). apply stripped_text_spec. eauto.
  - intros before child after t -> Hk Ht Hne Hlater.
    rewrite fold_left_app. cbn [fold_left].
    assert (Hset : rule_step (fold_left rule_step before ∅) child !! k = Some (strip t)).
    { unfold rule_step.
      rewrite (proj2 (stripped_text_spec child (strip t))) by eauto.
      subst k. apply lookup_insert_eq. }
    revert Hset. generalize (rule_step (fold_left rule_step before ∅) child).
    induction after as [| c after IH]; intros d Hd; cbn [fold_left]; [exact Hd |].
    apply IH; [intros later Hin; apply Hlater; right; exact Hin |].
    unfold rule_step. destruct (stripped_text c) as [t' |] eqn:Hc; [| exact Hd].
    destruct (decide (tag c = k)) as [Heq | Hne'].
    + rewrite (Hlater c (or_introl eq_refl) Heq) in Hc. discriminate.
    + rewrite lookup_insert_ne by exact Hne'. exact Hd.
Qed.

Lemma sub_fold_sound child subs (d : gmap string string) k v :
  fold_left (sub_step child) subs d !! k = Some v ->
  d !! k = Some v
  \/ exists sub, In sub subs /\ k = tag child +:+ "." +:+ tag sub
                 /\ stripped_text sub = Some v.
Proof.
  revert d. induction subs as [| s subs IH]; intros d H; cbn [fold_left] in H.
  - left. exact H.
  - destruct (IH _ H) as [Hd | (sub & Hin & Hk & Hv)].
    + unfold sub_step in Hd. destruct (stripped_text s) as [t |] eqn:Ht.
      * destruct (decide (tag child +:+ "." +:+ tag s = k)) as [Heq | Hne].
        -- subst k. rewrite lookup_insert_eq in Hd. injection Hd as ->.
           right. exists s. split; [left; reflexivity | auto].
        -- rewrite lookup_insert_ne in Hd by exact Hne. left. exact Hd.
      * left. exact Hd.
    + right. exists sub. split; [right; exact Hin | auto].
Qed.

Lemma child_fold_sound cs (d : gmap string string) k v :
  fold_left child_step cs d !! k = Some v ->
  d !! k = Some v
  \/ (exists child, In child cs /\ children child = [] /\ tag child = k
                    /\ stripped_text child = Some v)
  \/ (exists child sub, In child cs /\ In sub (children child)
                        /\ k = tag child +:+ "." +:+ tag sub
                        /\ stripped_text sub = Some v).
Proof.
  revert d. induction cs as [| c cs IH]; intros d H; cbn [fold_left] in H.
  - left. exact H.
  - destruct (IH _ H) as [Hd | [(child & Hin & Hrest) | (child & sub & Hin & Hrest)]].
    + unfold child_step in Hd. destruct (bool_decide (children c <> [])) eqn:Hch.
      * apply sub_fold_sound in Hd as [Hd | (sub & Hin & Hk & Hv)]; [left; exact Hd |].
        right. right. exists c, sub. split; [left; reflexivity | auto].
      * apply bool_decide_eq_false in Hch. apply dec_stable in Hch.
        destruct (stripped_text c) as [t |] eqn:Ht; [| left; exact Hd].
        destruct (decide (tag c = k)) as [Heq | Hne].
        -- subst k. rewrite lookup_insert_eq in Hd. injection Hd as ->.
           right. left. exists c. split; [left; reflexivity | auto].
        -- rewrite lookup_insert_ne in Hd by exact Hne. left. exact Hd.
    + right. left. exists child. split; [right; exact Hin | exact Hrest].
    + right. right. exists child, sub. split; [right; exact Hin | exact Hrest].
Qed.

Lemma dotted_key_longer a b : a +:+ "." +:+ b <> a.
Proof.
  intros H. apply (f_equal String.length) in H.
  rewrite !length_append in H. cbn [String.length] in H. lia.
Qed.

Lemma sub_fold_other child subs (d : gmap string string) :
  fold_left (sub_step child) subs d !! tag child = d !! tag child.
Proof.
  revert d. induction subs as [| s subs IH]; intros d; cbn [fold_left]; [reflexivity |].
  rewrite IH. unfold sub_step. destruct (stripped_text s); [| reflexivity].
  apply lookup_insert_ne, dotted_key_longer.
Qed.

(** Every entry of the flattened dictionary comes from a child without
    sub-elements (key: its tag) or from a sub-element of a child (key:
    [child.sub]), the value being the stripped, non-empty text; a last
    child without sub-elements and with non-blank text sets its tag; and a
    last child that has sub-elements leaves the entry under its own tag as
    it was, whatever its own text. *)
Theorem extract_children_text_lookup elem :
  (forall k v,
      extract_children_text elem !! k = Some v ->
      v <> EmptyString
      /\ ((exists child t,
              In child (children elem) /\ children child = [] /\ tag child = k
              /\ text child = Some t /\ v = strip t)
          \/ (exists child sub t,
                 In child (children elem) /\ In sub (children child)
                 /\ k = tag child +:+ "." +:+ tag sub
                 /\ text sub = Some t /\ v = strip t)))
  /\ (forall before child t,
         children elem = before ++ [child] ->
         children child = [] -> text child = Some t -> strip t <> EmptyString ->
         extract_children_text elem !! tag child = Some (strip t))
  /\ (forall before child,
         children elem = before ++ [child] ->
         children child <> [] ->
         extract_children_text elem !! tag child
         = extract_children_text (Elem (tag elem) (attrib elem) (text elem) before)
             !! tag child).
Proof.
  change (extract_children_text elem) with (fold_left child_step (children elem) ∅).
  split; [| split].
  - intros k v Hv.
    apply child_fold_sound in Hv
        as [Hd | [(child & Hin & Hleaf & Hk & Hs) | (child & sub & Hin & Hsub & Hk & Hs)]].
    + rewrite lookup_empty in Hd. discriminate.
    + apply stripped_text_spec in Hs as (t & Ht & -> & Hne).
      split; [exact Hne |]. left. exists child, t. auto.
    + apply stripped_text_spec in Hs as (t & Ht & -> & Hne).
      split; [exact Hne |]. right. exists child, sub, t. auto.
  - intros before child t -> Hleaf Ht Hne.
    rewrite fold_left_app. cbn [fold_left]. unfold child_step at 1.
    rewrite bool_decide_eq_false_2 by (rewrite Hleaf; intros H; apply H; reflexivity).
    rewrite (proj2 (stripped_text_spec child (strip t))) by eauto.
    apply lookup_insert_eq.
  - intros before child -> Hsubs.
    change (extract_children_text (Elem (tag elem) (attrib elem) (text elem) before))
      with (fold_left child_step before ∅).
    rewrite fold_left_app. cbn [fold_left]. unfold child_step at 1.
    rewrite bool_decide_eq_true_2 by exact Hsubs.
    apply sub_fold_other.
Qed.

End Dictionaries.

(** ** The pass: numbering, extent, empty results, dictionaries *)

Section Loops_more.
Context {S A : Type} (body : S -> A -> result S).

Lemma for_each_app xs ys s :
  for_each body (xs ++ ys) s
  = let* s1 := for_each body xs s in for_each body ys s1.
Proof.
  revert s. induction xs as [| x xs IH]; intros s; cbn [for_each app rbind].
  - reflexivity.
  - destruct (body s x) as [s1 |]; cbn [rbind]; [apply IH | reflexivity].
Qed.


End Loops_more.

Section Pass_more.
Import Py Voc VocX.

Lemma viewobject_body_unfold st viewobject :
  viewobject_body st viewobject
  = match find "SHAPEARRAY" viewobject with
    | None => Ok (reset_dicts st viewobject)
    | Some shape_array =>
        let* st1 := for_each (shape_body (sysname_of viewobject) (symbol_key_of viewobject))
                             (enumerate (findall_desc "ShapeObject" shape_array))
                             (reset_dicts st viewobject) in
        Ok (with_canvas_size st1)
    end.
Proof. reflexivity. Qed.

(** A property of counter, elements and extent that every shape step
    keeps is kept by the whole pass. *)
Lemma pass_invariant (P : State -> Prop) :
  (forall st viewobject, P st -> P (reset_dicts st viewobject)) ->
  (forall st, P st -> P (with_canvas_size st)) ->
  (forall sysname symbol_key st shapeobject st',
      shape_step sysname symbol_key st shapeobject st' -> P st -> P st') ->
  forall g root st,
    P (initial_state g) -> parse_xml_run g root = Ok st -> P st.
Proof.
  intros Hreset Hsize Hstep g root st Hinit Hrun.
  refine (for_each_invariant viewobject_body P _ _ _ _ Hrun Hinit).
  intros s vo s' Hvo Hs. rewrite viewobject_body_unfold in Hvo.
  destruct (find "SHAPEARRAY" vo) as [sa |].
  - destruct (for_each _ _ _) as [s1 |] eqn:Hloop; [| discriminate].
    cbn [rbind] in Hvo. injection Hvo as <-. apply Hsize.
    refine (for_each_invariant _ P _ _ _ _ Hloop (Hreset _ _ Hs)).
    intros s2 [idx so] s3 Hbody. eapply Hstep, shape_body_ok, Hbody.
  - injection Hvo as <-. apply Hreset, Hs.
Qed.

(** *** Numbering *)



(** *** The extent is set as a whole *)

Lemma uniform_update ext x_lo x_hi y_lo y_hi : uniform (update_extent ext x_lo x_hi y_lo y_hi).
Proof. right. unfold update_extent. do 4 eexists. reflexivity. Qed.

Lemma point_body_uniform acc pt acc' :
  point_body acc pt = Ok acc' -> uniform (snd acc) -> uniform (snd acc').
Proof.
  destruct acc as [points ext]. unfold point_body.
  destruct (Py.int (findtext "X" pt)) as [x |]; [| discriminate]. cbn [rbind].
  destruct (Py.int (findtext "Y" pt)) as [y |]; [| discriminate]. cbn [rbind].
  intros [= <-] _. apply uniform_update.
Qed.

(** After the pass the four bounds are either all unset, and the canvas
    size computed from them is the default 800 by 600, or all set, and it
    is [max_x - min_x] by [max_y - min_y]. *)
Theorem extent_set_as_a_whole g root st :
  parse_xml_run g root = Ok st ->
  (extent st = mkExtent None None None None /\ size_of_extent (extent st) = (800, 600))
  \/ exists x0 x1 y0 y1,
       extent st = mkExtent (Some x0) (Some x1) (Some y0) (Some y1)
       /\ size_of_extent (extent st) = (x1 - x0, y1 - y0).
Proof.
  intros Hrun.
  assert (Hu : uniform (extent st)).
  { revert Hrun. apply (pass_invariant (fun s => uniform (extent s))).
    - intros s vo H. exact H.
    - intros s H. exact H.
    - intros sn sk s so s' Hstep Hs.
      destruct Hstep
        as [_ -> | ? ? ? ? ? ? ? ? ? _ _ _ _ _ _ _ -> _
            | ? ? ? ? ? ? _ _ _ _ _ _ -> _
            | ? ? ? ? ? points ext _ _ _ _ Hpts _ _ -> _
            | ? ? _ _ _ _ _ _ _ _ -> _];
        try exact Hs; try apply uniform_update.
      exact (for_each_invariant point_body (fun acc => uniform (snd acc)) _
               point_body_uniform _ _ Hpts Hs).
    - left. reflexivity. }
  destruct Hu as [-> | (x0 & x1 & y0 & y1 & ->)].
  - left. split; reflexivity.
  - right. exists x0, x1, y0, y1. split; reflexivity.
Qed.

(** *** Documents that yield nothing *)

Lemma for_each_no_shapearray vos st :
  (forall vo, In vo vos -> find "SHAPEARRAY" vo = None) ->
  exists st', for_each viewobject_body vos st = Ok st'
              /\ canvas_elements st' = canvas_elements st.
Proof.
  revert st. induction vos as [| vo vos IH]; intros st Hall; cbn [for_each].
  - eauto.
  - rewrite viewobject_body_unfold, (Hall vo (or_introl eq_refl)). cbn [rbind].
    destruct (IH (reset_dicts st vo)) as (st' & Hrun & He).
    { intros v Hv. apply Hall. right. exact Hv. }
    exists st'. split; [exact Hrun | rewrite He; reflexivity].
Qed.

(** The pass returns the empty list, without raising, when no element
    below the root is a [ViewObject] (the root itself is not looked at,
    whatever its tag and content) and, more generally, when no
    [ViewObject] below the root has a [SHAPEARRAY] child. *)
Theorem parse_xml_nothing_to_emit g root :
  (findall_desc "ViewObject" root = [] -> parse_xml g root = Ok [])
  /\ ((forall vo, In vo (findall_desc "ViewObject" root) -> find "SHAPEARRAY" vo = None) ->
      parse_xml g root = Ok []).
Proof.
  assert (Hgen : (forall vo, In vo (findall_desc "ViewObject" root) ->
                             find "SHAPEARRAY" vo = None) ->
                 parse_xml g root = Ok []).
  { intros Hall. unfold parse_xml, parse_xml_run.
    destruct (for_each_no_shapearray _ (initial_state g) Hall) as (st' & -> & He).
    cbn [rbind]. rewrite He. reflexivity. }
  split; [| exact Hgen].
  intros Hnone. apply Hgen. rewrite Hnone. intros vo [].
Qed.

(** *** The module-level dictionaries *)

Lemma union_empty_r (m : gmap string string) : m ∪ ∅ = m.
Proof. apply (right_id_L ∅ (∪)). Qed.

(** The dictionaries outlive the call and are cleared only when a
    [ViewObject] is met: a document without [ViewObject] leaves them as
    the previous call left them, and after a document whose last
    [ViewObject] has no [SHAPEARRAY] the shape and rule dictionaries are
    empty and the parent dictionary is that of this last [ViewObject],
    whatever the earlier ones held. *)
Theorem dictionaries_follow_last_viewobject g root st :
  parse_xml_run g root = Ok st ->
  (findall_desc "ViewObject" root = [] ->
   parent_dict st = g_parent_dict g
   /\ shape_dict st = g_shape_dict g
   /\ crule_dict st = g_crule_dict g)
  /\ (forall before last,
         findall_desc "ViewObject" root = before ++ [last] ->
         find "SHAPEARRAY" last = None ->
         parent_dict st = extract_children_text last
         /\ shape_dict st = ∅
         /\ crule_dict st = ∅).
Proof.
  unfold parse_xml_run. intros Hrun. split.
  - intros Hnone. rewrite Hnone in Hrun. injection Hrun as <-. auto.
  - intros before last Hvos Hlast. rewrite Hvos, for_each_app in Hrun.
    destruct (for_each viewobject_body before (initial_state g)) as [s1 |];
      [| discriminate].
    cbn [rbind for_each] in Hrun.
    rewrite viewobject_body_unfold, Hlast in Hrun. cbn [rbind] in Hrun.
    injection Hrun as <-. cbn. rewrite union_empty_r. auto.
Qed.

End Pass_more.

(** ** When the pass returns, and what text boxes and polygons emit *)

Section Shapes_more.
Import Py Voc VocX.










(** *** Exactly when the pass returns *)






End Shapes_more.

(** ** The validator: what it sees of the output tree *)

Section Validator_more.
Import Py Voc.

(** The validator reports success exactly when every checked source
    element (every element not tagged [root] in some capitalisation) has
    its tag among the tags of the output tree and each of its attribute
    values among the attribute values of the output tree. *)
Theorem validate_conversion_success_iff root xaml_root :
  validate_conversion root xaml_root = Validation_successful
  <-> forall e, checked root e ->
        tag_in (tag e) xaml_root
        /\ forall k v, In (k, v) (attrib e) -> value_in v xaml_root.
Proof.
  rewrite <- mismatches_nil. unfold validate_conversion.
  destruct (mismatches root xaml_root) as [| m ms] eqn:Hm.
  - rewrite bool_decide_eq_false_2 by (intros H; apply H; reflexivity).
    split; reflexivity.
  - rewrite bool_decide_eq_true_2 by discriminate. split; discriminate.
Qed.

(** A document validated against itself is reported successful. *)
Theorem validate_conversion_reflexive root :
  validate_conversion root root = Validation_successful.
Proof.
  unfold validate_conversion.
  assert (H : mismatches root root = []).
  { apply mismatches_nil. intros e [Hin _]. split.
    - exists e. auto.
    - intros k v Hk. exists e, k. auto. }
  rewrite H. reflexivity.
Qed.

(** A checked source element whose tag is nowhere in the output tree is
    reported with a [Missing tag] line. *)
Theorem validate_conversion_missing_tag root xaml_root e :
  checked root e -> ~ tag_in (tag e) xaml_root ->
  exists issues,
    validate_conversion root xaml_root = Validation_failed issues
    /\ In ("Missing tag: " +:+ tag e) issues.
Proof.
  intros [Hin Hroot] Htag.
  assert (Hissue : In ("Missing tag: " +:+ tag e) (mismatches root xaml_root)).
  { rewrite mismatches_flat_map. apply in_flat_map. exists e. split; [exact Hin |].
    unfold elem_issues.
    destruct (String.eqb_spec (lower (tag e)) "root") as [Heq | _]; [contradiction |].
    apply in_or_app. left.
    rewrite bool_decide_eq_true_2; [left; reflexivity |].
    intros Hn. apply Htag, gather_xaml_tags, Hn. }
  exists (mismatches root xaml_root). unfold validate_conversion.
  rewrite bool_decide_eq_true_2; [auto |].
  intros Heq. rewrite Heq in Hissue. destruct Hissue.
Qed.

(** The check is one of membership, not of structure: two output trees
    with the same tags and the same attribute values, however arranged,
    repeated or attached, get the same report for every source tree. *)
Theorem validate_conversion_sets_only root xaml1 xaml2 :
  (forall t, tag_in t xaml1 <-> tag_in t xaml2) ->
  (forall v, value_in v xaml1 <-> value_in v xaml2) ->
  validate_conversion root xaml1 = validate_conversion root xaml2.
Proof.
  intros Htags Hvals.
  assert (Hg : gather_xaml xaml1 = gather_xaml xaml2).
  { destruct (gather_xaml xaml1) as [t1 v1] eqn:H1.
    destruct (gather_xaml xaml2) as [t2 v2] eqn:H2.
    f_equal; apply set_eq; intros x.
    - change t1 with (t1, v1).1. change t2 with (t2, v2).1.
      rewrite <- H1, <- H2, !gather_xaml_tags. apply Htags.
    - change v1 with (t1, v1).2. change v2 with (t2, v2).2.
      rewrite <- H1, <- H2, !gather_xaml_values. apply Hvals. }
  unfold validate_conversion, mismatches. rewrite Hg. reflexivity.
Qed.

End Validator_more.

(** ** The attribute comparator *)

Section Comparator.
Import Py PyMore Voc VocX PyFacts.

(** *** Substrings *)

Lemma prefix_spec a b : String.prefix a b = true <-> exists post, b = a +:+ post.
Proof.
  revert b. induction a as [| c a IH]; intros b.
  - destruct b; cbn; (split; [intros _; eexists; reflexivity | reflexivity]).
  - destruct b as [| d b]; cbn [String.prefix].
    + split; [discriminate | intros (post & [=])].
    + destruct (ascii_dec c d) as [-> | Hne].
      * rewrite IH. split; intros [post Hp]; exists post.
        -- rewrite Hp. reflexivity.
        -- change (String d b = String d (a +:+ post)) in Hp.
           injection Hp as ->. reflexivity.
      * split; [discriminate |]. intros (post & Hp).
        change (String d b = String c (a +:+ post)) in Hp. congruence.
Qed.

(** [needle in hay] holds exactly when [hay] is some text, then [needle],
    then some text. *)
Lemma contains_spec needle hay :
  contains needle hay = true <-> exists pre post, hay = pre +:+ needle +:+ post.
Proof.
  induction hay as [| c hay IH]; cbn [contains]; rewrite orb_true_iff, prefix_spec.
  - split.
    + intros [[post Hp] | H]; [exists EmptyString, post; exact Hp | discriminate].
    + intros (pre & post & Hp). left. exists post.
      destruct pre; [exact Hp | discriminate].
  - rewrite IH. split.
    + intros [[post Hp] | (pre & post & Hp)].
      * exists EmptyString, post. exact Hp.
      * exists (String c pre), post. rewrite Hp. reflexivity.
    + intros (pre & post & Hp). destruct pre as [| d pre].
      * left. exists post. exact Hp.
      * right. change (String c hay = String d (pre +:+ needle +:+ post)) in Hp.
        injection Hp as -> ->. eauto.
Qed.

(** *** [find_matching_shapes] *)

Lemma match_elem_appends shape_id attribute is_xml acc elem :
  match_elem shape_id attribute is_xml acc elem
  = acc ++ match_of shape_id attribute is_xml elem.
Proof.
  unfold match_elem, match_of. destruct (id_attr is_xml elem) as [found |].
  - destruct (truthy found); cbn [andb]; [| rewrite app_nil_r; reflexivity].
    destruct (contains shape_id found); [reflexivity | rewrite app_nil_r; reflexivity].
  - rewrite app_nil_r. reflexivity.
Qed.

Lemma find_matching_shapes_flat_map root shape_id attribute is_xml :
  find_matching_shapes (Some root) shape_id attribute is_xml
  = flat_map (match_of shape_id attribute is_xml) (iter root).
Proof.
  unfold find_matching_shapes.
  rewrite (fold_left_appends _ _ _ (match_elem_appends shape_id attribute is_xml)).
  reflexivity.
Qed.

Lemma match_of_elements shape_id attribute is_xml es :
  map (fun m : Match => m.1.1) (flat_map (match_of shape_id attribute is_xml) es)
  = List.filter (identified shape_id is_xml) es.
Proof.
  induction es as [| e es IH]; [reflexivity |].
  cbn [flat_map List.filter]. rewrite map_app, IH.
  unfold match_of, identified. destruct (id_attr is_xml e) as [found |]; [| reflexivity].
  destruct (truthy found && contains shape_id found); reflexivity.
Qed.

Lemma in_match_of shape_id attribute is_xml e m :
  In m (match_of shape_id attribute is_xml e)
  <-> exists found,
        m = (e, found, dict_get attribute (attrib e))
        /\ id_attr is_xml e = Some found
        /\ found <> EmptyString
        /\ contains shape_id found = true.
Proof.
  unfold match_of. destruct (id_attr is_xml e) as [found |].
  - destruct (truthy found) eqn:Ht; cbn [andb].
    + destruct (contains shape_id found) eqn:Hc.
      * split.
        -- intros [<- | []]. exists found.
           split; [reflexivity |]. split; [reflexivity |].
           split; [apply truthy_nonempty, Ht | exact Hc].
        -- intros (f & -> & [= <-] & _). left. reflexivity.
      * split; [intros [] | intros (f & _ & [= <-] & _ & Hc'); congruence].
    + split; [intros [] |]. intros (f & _ & [= <-] & Hne & _).
      apply truthy_nonempty in Hne. congruence.
  - split; [intros [] | intros (f & _ & [=] & _)].
Qed.

Lemma in_find_matching_shapes root shape_id attribute is_xml m :
  In m (find_matching_shapes (Some root) shape_id attribute is_xml)
  <-> exists e found,
        In e (iter root)
        /\ m = (e, found, dict_get attribute (attrib e))
        /\ id_attr is_xml e = Some found
        /\ found <> EmptyString
        /\ contains shape_id found = true.
Proof.
  rewrite find_matching_shapes_flat_map, in_flat_map. split.
  - intros (e & Hin & Hm). apply in_match_of in Hm as (found & Hrest). eauto.
  - intros (e & found & Hin & Hrest). exists e. split; [exact Hin |].
    apply in_match_of. eauto.
Qed.

(** The matches are, in document order, the elements that carry a
    non-empty identifier containing [shape_id]; each entry holds its
    element, that identifier and the element's value of the requested
    attribute ([None] when it has none); a document that could not be read
    has no match. *)
Theorem find_matching_shapes_spec root shape_id attribute is_xml :
  find_matching_shapes None shape_id attribute is_xml = []
  /\ map (fun m : Match => m.1.1)
         (find_matching_shapes (Some root) shape_id attribute is_xml)
     = List.filter (identified shape_id is_xml) (iter root)
  /\ forall e found value,
       In (e, found, value) (find_matching_shapes (Some root) shape_id attribute is_xml)
       <-> In e (iter root)
           /\ id_attr is_xml e = Some found
           /\ found <> EmptyString
           /\ (exists pre post, found = pre +:+ shape_id +:+ post)
           /\ value = dict_get attribute (attrib e).
Proof.
  split; [reflexivity |]. split.
  - rewrite find_matching_shapes_flat_map. apply match_of_elements.
  - intros e found value. rewrite in_find_matching_shapes, <- contains_spec. split.
    + intros (e' & f & Hin & [= -> -> ->] & Hid & Hne & Hc). auto.
    + intros (Hin & Hid & Hne & Hc & ->). exists e, found. auto.
Qed.

(** An element with a non-empty [id] (source dialect) or [x:Name] (output
    dialect) that does not contain [shape_id] is never matched, even when
    its [Name] contains it; with that attribute absent or empty, the
    element is identified by its [Name]. *)
Theorem identifier_precedence elem shape_id attribute root (is_xml : bool) primary :
  dict_get (if is_xml then "id" else "x:Name") (attrib elem) = primary ->
  (forall i, primary = Some i -> i <> EmptyString -> contains shape_id i = false ->
             forall found value,
               ~ In (elem, found, value)
                    (find_matching_shapes (Some root) shape_id attribute is_xml))
  /\ (primary = None \/ primary = Some EmptyString ->
      id_attr is_xml elem = dict_get "Name" (attrib elem)).
Proof.
  intros Hp. split.
  - intros i -> Hne Hc found value Hin.
    apply in_find_matching_shapes in Hin as (e & f & _ & [= <- <- _] & Hid & _ & Hcf).
    apply truthy_nonempty in Hne.
    unfold id_attr, or_opt in Hid. destruct is_xml; rewrite Hp in Hid;
      cbn [otruthy] in Hid; rewrite Hne in Hid; congruence.
  - intros Hcase. unfold id_attr, or_opt.
    destruct is_xml; rewrite Hp; destruct Hcase as [-> | ->]; reflexivity.
Qed.

(** *** [choose_match] *)





Lemma choose_loop_answers matches inputs v i rest :
  choose_loop matches inputs = Answer (v, i) rest ->
  exists elem found used,
    In (elem, found, v) matches /\ i = Some found /\ inputs = used ++ rest.
Proof.
  revert rest. induction inputs as [| line inputs IH]; intros rest; [discriminate |].
  cbn [choose_loop].
  assert (Hretry : choose_loop matches inputs = Answer (v, i) rest ->
                   exists elem found used,
                     In (elem, found, v) matches /\ i = Some found
                     /\ line :: inputs = used ++ rest).
  { intros H. destruct (IH rest H) as (elem & found & used & Hin & Hi & ->).
    exists elem, found, (line :: used). auto. }
  destruct (isdigit (strip line)); [| exact Hretry].
  destruct (int_of_string (strip line)) as [n |]; [| discriminate].
  destruct ((0 <=? n - 1) && (n - 1 <? Z.of_nat (length matches))); [| exact Hretry].
  destruct (nth_error matches (Z.to_nat (n - 1))) as [[[elem found] val] |] eqn:Hnth;
    [| discriminate].
  intros [= <- <- <-]. exists elem, found, [line].
  split; [eapply nth_error_In, Hnth | auto].
Qed.



Lemma all_digits_digit_chars ds :
  Forall (fun d => 0 <= d < 10) ds ->
  all_digits (string_of_list_ascii (map digit_char ds)) = true.
Proof.
  induction 1 as [| d ds Hd _ IH]; [reflexivity |]. cbn [map string_of_list_ascii all_digits].
  rewrite IH, andb_true_r.
  assert (Hcases : d = 0 \/ d = 1 \/ d = 2 \/ d = 3 \/ d = 4 \/ d = 5 \/ d = 6 \/ d = 7
          \/ d = 8 \/ d = 9) by lia.
  repeat (destruct Hcases as [-> | Hcases]; [reflexivity |]).
  subst d. reflexivity.
Qed.

Lemma isdigit_str n : 0 <= n -> isdigit (str n) = true.
Proof.
  intros Hn. unfold isdigit. rewrite truthy_str. cbn [andb].
  unfold str. destruct (Z.ltb_spec n 0); [lia |].
  apply all_digits_digit_chars, digits_range. lia.
Qed.

(** With two or more candidates, a line that is not a number between 1 and
    the number of candidates (after stripping) is passed over and the next
    line is asked for; the number [k + 1], typed in decimal, selects the
    candidate at position [k] (from 0) and leaves the rest of the input
    unread. *)
Theorem choose_match_retries m1 m2 ms :
  let matches := m1 :: m2 :: ms in
  (forall line rest,
      isdigit (strip line) = false
      \/ (exists n, int_of_string (strip line) = Some n
                    /\ (n < 1 \/ Z.of_nat (length matches) < n)) ->
      choose_match matches (line :: rest) = choose_match matches rest)
  /\ (forall (k : nat) elem found value rest,
         nth_error matches k = Some (elem, found, value) ->
         choose_match matches (str (Z.of_nat k + 1) :: rest)
         = Answer (value, Some found) rest).
Proof.
  destruct m1 as [[elem1 found1] value1]. intros matches. split.
  - intros line rest Hbad.
    change (choose_match matches (line :: rest)) with (choose_loop matches (line :: rest)).
    change (choose_match matches rest) with (choose_loop matches rest).
    cbn [choose_loop]. destruct Hbad as [-> | (n & -> & Hn)]; [reflexivity |].
    destruct (isdigit (strip line)); [| reflexivity].
    destruct (Z.leb_spec 0 (n - 1)), (Z.ltb_spec (n - 1) (Z.of_nat (length matches)));
      cbn [andb]; try reflexivity. lia.
  - intros k elem found value rest Hnth.
    change (choose_match matches (str (Z.of_nat k + 1) :: rest))
      with (choose_loop matches (str (Z.of_nat k + 1) :: rest)).
    cbn [choose_loop].
    rewrite (strip_spaceless _ (spaceless_str _)), isdigit_str, int_of_string_str by lia.
    replace (Z.of_nat k + 1 - 1) with (Z.of_nat k) by lia.
    assert (Hk : (k < length matches)%nat) by (apply nth_error_Some; congruence).
    destruct (Z.leb_spec 0 (Z.of_nat k)); [| lia].
    destruct (Z.ltb_spec (Z.of_nat k) (Z.of_nat (length matches))); [| lia].
    cbn [andb]. rewrite Nat2Z.id, Hnth. reflexivity.
Qed.

(** *** The comparison as a whole *)

Lemma choose_match_value matches inputs v i rest :
  choose_match matches inputs = Answer (Some v, i) rest ->
  exists elem found, In (elem, found, Some v) matches.
Proof.
  unfold choose_match. destruct matches as [| [[elem found] val] [| m2 ms]].
  - discriminate.
  - intros [= -> _ _]. exists elem, found. left. reflexivity.
  - intros H. apply choose_loop_answers in H as (e & f & _ & Hin & _). eauto.
Qed.

Lemma find_matching_shapes_value root shape_id attribute is_xml e found v :
  In (e, found, Some v) (find_matching_shapes root shape_id attribute is_xml) ->
  exists r,
    root = Some r /\ In e (iter r)
    /\ dict_get attribute (attrib e) = Some v
    /\ id_attr is_xml e = Some found
    /\ contains shape_id found = true.
Proof.
  destruct root as [r |]; [| intros []]. intros Hin.
  apply in_find_matching_shapes in Hin as (e' & f & Hin & [= <- <- Hv] & Hid & _ & Hc).
  exists r. auto.
Qed.

(** The verdict "matches" is sound: it is only given when both documents
    were read and each holds an element, identified by an identifier that
    contains [shape_id], whose requested attribute has the reported
    value. *)
Theorem comparison_match_sound shape_id attribute xml_root xaml_root inputs v rest :
  compare_shape_attributes shape_id attribute xml_root xaml_root inputs
  = Answer (Attribute_matches v) rest ->
  exists x_root o_root e1 e2 id1 id2,
    xml_root = Some x_root /\ xaml_root = Some o_root
    /\ In e1 (iter x_root) /\ In e2 (iter o_root)
    /\ dict_get attribute (attrib e1) = Some v
    /\ dict_get attribute (attrib e2) = Some v
    /\ id_attr true e1 = Some id1 /\ id_attr false e2 = Some id2
    /\ contains shape_id id1 = true /\ contains shape_id id2 = true.
Proof.
  unfold compare_shape_attributes.
  destruct (choose_match (find_matching_shapes xml_root shape_id attribute true) inputs)
    as [[xv xi] in1 |] eqn:H1; [| discriminate].
  destruct (choose_match (find_matching_shapes xaml_root shape_id attribute false) in1)
    as [[ov oi] in2 |] eqn:H2; [| discriminate].
  unfold compare_attributes. destruct xv as [x |], ov as [y |]; try discriminate.
  destruct (String.eqb_spec x y) as [<- | _]; [| discriminate].
  intros [= <- _].
  apply choose_match_value in H1 as (e1 & id1 & Hm1).
  apply choose_match_value in H2 as (e2 & id2 & Hm2).
  apply find_matching_shapes_value in Hm1 as (xr & -> & Hi1 & Hv1 & Hid1 & Hc1).
  apply find_matching_shapes_value in Hm2 as (orr & -> & Hi2 & Hv2 & Hid2 & Hc2).
  exists xr, orr, e1, e2, id1, id2. repeat split; assumption.
Qed.

(** When either document has no element identified by [shape_id] (in
    particular when it could not be read), the comparison never reports a
    match or a mismatch: if it comes to a verdict at all, the verdict is
    that the comparison failed. *)
Theorem comparison_needs_both_sides shape_id attribute xml_root xaml_root inputs :
  find_matching_shapes xml_root shape_id attribute true = []
  \/ find_matching_shapes xaml_root shape_id attribute false = [] ->
  forall verdict rest,
    compare_shape_attributes shape_id attribute xml_root xaml_root inputs
    = Answer verdict rest ->
    verdict = Comparison_failed.
Proof.
  intros Hnone verdict rest. unfold compare_shape_attributes.
  destruct Hnone as [-> | Hx].
  - cbn [choose_match].
    destruct (choose_match _ inputs) as [[ov oi] in2 |]; [| discriminate].
    intros [= <- _]. reflexivity.
  - destruct (choose_match _ inputs) as [[xv xi] in1 |]; [| discriminate].
    rewrite Hx. cbn [choose_match]. intros [= <- _].
    destruct xv; reflexivity.
Qed.

End Comparator.

(** ** The further properties on the samples *)

Lemma extract_rule_details_lookup_witness :
  extract_rule_details MoreSamples.rule_twice !! "Cond" = Some (Py.strip "y").
Proof.
  apply (proj2 (proj2 (extract_rule_details_lookup MoreSamples.rule_twice "Cond"))
           [Samples.leaf "Cond" " x "] (Samples.leaf "Cond" "y")
           [Samples.node "Note" []] "y");
    [reflexivity | reflexivity | reflexivity | vm_compute; discriminate |].
  intros later [<- | []] Htag. discriminate Htag.
Defined.

Lemma extract_children_text_lookup_witness :
  extract_children_text MoreSamples.view_padded_key !! "SymbolKey"
  = Some (Py.strip " 42 ").
Proof.
  apply (proj1 (proj2 (extract_children_text_lookup MoreSamples.view_padded_key))
           [Samples.leaf "SysName" "Foo"] (Samples.leaf "SymbolKey" " 42 ") " 42 ");
    [reflexivity | reflexivity | reflexivity | vm_compute; discriminate].
Defined.


Lemma extent_set_as_a_whole_witness :
  (extent Samples.final_rect = mkExtent None None None None
   /\ size_of_extent (extent Samples.final_rect) = (800, 600))
  \/ exists x0 x1 y0 y1,
       extent Samples.final_rect = mkExtent (Some x0) (Some x1) (Some y0) (Some y1)
       /\ size_of_extent (extent Samples.final_rect) = (x1 - x0, y1 - y0).
Proof.
  apply (extent_set_as_a_whole Samples.no_globals Samples.doc_rect).
  vm_compute. reflexivity.
Defined.

Lemma parse_xml_nothing_to_emit_witness :
  parse_xml Samples.no_globals Samples.view_rect = Ok [].
Proof.
  apply (proj1 (parse_xml_nothing_to_emit Samples.no_globals Samples.view_rect)).
  reflexivity.
Defined.

Lemma dictionaries_follow_last_viewobject_witness :
  parent_dict MoreSamples.final_two_views = extract_children_text MoreSamples.view_bare
  /\ shape_dict MoreSamples.final_two_views = ∅
  /\ crule_dict MoreSamples.final_two_views = ∅.
Proof.
  apply (proj2 (dictionaries_follow_last_viewobject Samples.no_globals
                  MoreSamples.doc_two_views MoreSamples.final_two_views
                  ltac:(vm_compute; reflexivity))
           [Samples.view_rect] MoreSamples.view_bare);
    reflexivity.
Defined.




Lemma validate_conversion_success_iff_witness :
  Voc.tag_in (tag Samples.source_rectangle) Samples.output_tree
  /\ forall k v, In (k, v) (attrib Samples.source_rectangle) ->
                 Voc.value_in v Samples.output_tree.
Proof.
  refine (proj1 (validate_conversion_success_iff Samples.source_tree Samples.output_tree) _
            Samples.source_rectangle _).
  - vm_compute. reflexivity.
  - split; [right; left; reflexivity | vm_compute; discriminate].
Defined.

Lemma validate_conversion_missing_tag_witness :
  exists issues,
    validate_conversion Samples.source_tree MoreSamples.output_empty
    = Validation_failed issues
    /\ In ("Missing tag: " +:+ "Rectangle") issues.
Proof.
  apply (validate_conversion_missing_tag Samples.source_tree MoreSamples.output_empty
           Samples.source_rectangle).
  - split; [right; left; reflexivity | vm_compute; discriminate].
  - intros (x & [<- | []] & Ht). discriminate Ht.
Defined.

Lemma validate_conversion_sets_only_witness :
  validate_conversion Samples.source_tree Samples.output_tree
  = validate_conversion Samples.source_tree MoreSamples.output_repeated.
Proof.
  apply (validate_conversion_sets_only Samples.source_tree Samples.output_tree
           MoreSamples.output_repeated).
  - intros t. split.
    + intros (x & [<- | [<- | []]] & <-);
        [exists MoreSamples.output_repeated | eexists];
        (split; [| reflexivity]); [left | right; left]; reflexivity.
    + intros (x & [<- | [<- | [<- | []]]] & <-);
        [exists Samples.output_tree | eexists | eexists];
        (split; [| reflexivity]); [left | right; left | right; left]; reflexivity.
  - intros v. split.
    + intros (x & k & [<- | [<- | []]] & Hk); [destruct Hk |].
      eexists _, k. split; [right; left; reflexivity | exact Hk].
    + intros (x & k & [<- | [<- | [<- | []]]] & Hk); [destruct Hk | |];
        (eexists _, k; split; [right; left; reflexivity | exact Hk]).
Defined.

Lemma find_matching_shapes_spec_witness :
  In (MoreSamples.shape_with_id, "abc", Some "10")
     (find_matching_shapes (Some MoreSamples.xml_shapes) "b" "Width" true).
Proof.
  apply (proj2 (proj2 (find_matching_shapes_spec MoreSamples.xml_shapes "b" "Width" true))).
  split; [right; left; reflexivity |].
  split; [reflexivity |]. split; [discriminate |].
  split; [exists "a", "c"; reflexivity | reflexivity].
Defined.

Lemma identifier_precedence_witness :
  (forall found value,
      ~ In (MoreSamples.shape_with_id, found, value)
           (find_matching_shapes (Some MoreSamples.xml_shapes) "xyz" "Width" true))
  /\ id_attr true (Elem "Shape" [("Name", "SKN689Tc"); ("Width", "10")] None [])
     = PyMore.dict_get "Name" [("Name", "SKN689Tc"); ("Width", "10")].
Proof.
  split.
  - apply (proj1 (identifier_precedence MoreSamples.shape_with_id "xyz" "Width"
                    MoreSamples.xml_shapes true (Some "abc") ltac:(reflexivity)) "abc");
      [reflexivity | discriminate | reflexivity].
  - apply (proj2 (identifier_precedence
                    (Elem "Shape" [("Name", "SKN689Tc"); ("Width", "10")] None [])
                    "xyz" "Width" MoreSamples.xml_shapes true None ltac:(reflexivity))).
    left. reflexivity.
Defined.


Lemma choose_match_retries_witness :
  choose_match MoreSamples.two_candidates ["0"; " 1 "]
  = choose_match MoreSamples.two_candidates [" 1 "].
Proof.
  apply (proj1 (choose_match_retries
                  (Elem "Rectangle" [("Name", "Foo-rect-SKN689Tc-1"); ("Width", "10")] None [],
                   "Foo-rect-SKN689Tc-1", Some "10")
                  (Elem "Rectangle" [("Name", "Foo-rect-SKN689Tc-2"); ("Width", "12")] None [],
                   "Foo-rect-SKN689Tc-2", Some "12") []) "0" [" 1 "]).
  right. exists 0. split; [vm_compute; reflexivity | left; lia].
Defined.

Lemma comparison_match_sound_witness :
  exists x_root o_root e1 e2 id1 id2,
    Some MoreSamples.xml_shapes = Some x_root /\ Some MoreSamples.xaml_shapes = Some o_root
    /\ In e1 (iter x_root) /\ In e2 (iter o_root)
    /\ PyMore.dict_get "Width" (attrib e1) = Some "10"
    /\ PyMore.dict_get "Width" (attrib e2) = Some "10"
    /\ id_attr true e1 = Some id1 /\ id_attr false e2 = Some id2
    /\ PyMore.contains "SKN" id1 = true /\ PyMore.contains "SKN" id2 = true.
Proof.
  apply (comparison_match_sound "SKN" "Width" (Some MoreSamples.xml_shapes)
           (Some MoreSamples.xaml_shapes) ["1"] "10" []).
  vm_compute. reflexivity.
Defined.

Lemma comparison_needs_both_sides_witness :
  compare_shape_attributes "SKN" "Width" None (Some MoreSamples.xaml_shapes) ["1"]
  = Answer Comparison_failed []
  /\ Comparison_failed = Comparison_failed.
Proof.
  split; [vm_compute; reflexivity |].
  apply (comparison_needs_both_sides "SKN" "Width" None (Some MoreSamples.xaml_shapes)
           ["1"] (or_introl eq_refl) Comparison_failed []).
  vm_compute. reflexivity.
Defined.
